(** * sport-yolo: the video-processing pipeline, its detector and its
      submission endpoint, embedded from the Python sources

    - [Py]        the Python runtime as the sources use it: exception classes,
                  [%] and [/] that raise on a zero divisor, [int()] of a float,
                  [str.endswith], [format(x, '.nf')];
    - [Cv]        frames, the drawing calls made on them, VideoCapture and
                  VideoWriter objects;
    - [Runtime]   the process state the sources mutate, the environment they
                  consult, and the state-and-exception monad the embedding is
                  written in;
    - [Detector]  app/models/yolo_detector.py;
    - [Pipeline]  app/utils/videoprocessor.py;
    - [Api]       app/main.py (video submission, job status, background task);
    - [Props]     the notions the properties are stated with;
    - [Samples]   concrete videos and an environment to run the code on;
    - [DetectorInfo], [Stream], [Jobs], [Metrics]
                  the rest of the detector, the webcam loop, the other
                  endpoints of app/main.py and the MetricsLogger of
                  app/utils/logger.py, with their notions and samples
                  ([Props2], [Samples2]).

    What the embedding leaves out:
    - floats are the rational numbers they denote ([Q]): no float is NaN or
      infinite, and the rounding of float arithmetic and the binary form of a
      float are not modelled, so that a digit printed by [format] can differ
      at a decimal tie.  Comparisons, truncation by [int()] and the choice of
      a branch are exact on such values;
    - a frame is its shape and an opaque raster, together with the list of
      drawing calls made on it, with the arguments the source passes; of what
      OpenCV rasterises from a call only the clipping to the image is
      modelled ([may_paint]);
    - an opened writer takes every frame it is given;
    - the model, the clock, the text metrics and the file system are an
      environment the code consults;
    - [await asyncio.sleep] is a yield that changes nothing in the state;
    - a text is the string of its bytes (UTF-8); [str.lower], which follows
      the Unicode tables, is a function of the environment. *)

From Stdlib Require Import ZArith QArith Qabs List String Ascii Bool Lia.
From Stdlib Require Import Numbers.DecimalString.
From Stdlib Require Import Numbers.DecimalZ.
Import ListNotations.

Open Scope string_scope.
Open Scope list_scope.
Open Scope Z_scope.

(* ===================================================================== *)
(** ** Python runtime *)
(* ===================================================================== *)

Module Py.

(** The exception classes that reach the code under study.  All of them
    derive from [Exception], so an [except Exception] clause catches each.
    [IOError] is Python 3's alias of [OSError]. *)
Inductive exn : Type :=
| ValueError (msg : string)
| ZeroDivisionError
| TypeError
| KeyError (key : Z)
| OSError (path : string)
| CvError                      (* cv2.error *)
| ModelError (msg : string).   (* whatever the wrapped model raises *)

Definition is_IOError (e : exn) : bool :=
  match e with OSError _ => true | _ => false end.

Definition is_ValueError (e : exn) : bool :=
  match e with ValueError _ => true | _ => false end.

(** [a % b] on ints: the result has the sign of the divisor, as [Z.modulo];
    a zero divisor raises. *)
Definition py_mod (a b : Z) : exn + Z :=
  if b =? 0 then inl ZeroDivisionError else inr (a mod b).

(** [a / b] on ints: true division, a float; a zero divisor raises. *)
Definition py_truediv (a b : Z) : exn + Q :=
  if b =? 0 then inl ZeroDivisionError else inr (inject_Z a / inject_Z b)%Q.

(** [int(x)] of a float: truncation toward zero. *)
Definition py_int (x : Q) : Z := Z.quot (Qnum x) (Z.pos (Qden x)).

(** [x > y] on floats. *)
Definition Qgtb (x y : Q) : bool := negb (Qle_bool x y).

(** [str(n)] of an int. *)
Definition str_Z (n : Z) : string := NilZero.string_of_int (Z.to_int n).

(** Round to the nearest integer, ties to even (what float formatting does
    with the exact value). *)
Definition round_half_even (x : Q) : Z :=
  let n := Qnum x in
  let d := Z.pos (Qden x) in
  let fl := n / d in
  let r2 := 2 * (n mod d) in
  if r2 <? d then fl
  else if d <? r2 then fl + 1
  else if Z.even fl then fl else fl + 1.

(** [s.zfill(width)] for a string of digits: zeros on the left up to [width]. *)
Fixpoint zfill_aux (fuel width : nat) (s : string) : string :=
  match fuel with
  | O => s
  | S fuel' =>
      if (String.length s <? width)%nat then zfill_aux fuel' width ("0" ++ s)%string
      else s
  end.

Definition zfill (width : nat) (s : string) : string := zfill_aux width width s.

(** [format(x, '.<digits>f')]. *)
Definition format_f (digits : nat) (x : Q) : string :=
  let scale := 10 ^ Z.of_nat digits in
  let n := round_half_even (Qabs x * inject_Z scale)%Q in
  let whole := str_Z (n / scale) in
  let body :=
    match digits with
    | O => whole
    | _ => (whole ++ "." ++ zfill digits (str_Z (n mod scale)))%string
    end in
  if Qnum x <? 0 then ("-" ++ body)%string else body.

(** [c.lower()] on an ASCII character. *)
Definition lower_ascii (c : ascii) : ascii :=
  let n := nat_of_ascii c in
  if ((65 <=? n) && (n <=? 90))%nat then ascii_of_nat (n + 32) else c.

(** [s.lower()] on a text made of ASCII characters.  On other texts
    [str.lower] follows the Unicode tables, which are not part of this
    development: there it is a function of the environment ([str_lower]). *)
Fixpoint ascii_lower (s : string) : string :=
  match s with
  | EmptyString => EmptyString
  | String c r => String (lower_ascii c) (ascii_lower r)
  end.

(** [s.endswith(suffix)]. *)
Definition endswith (s suffix : string) : bool :=
  let n := String.length s in
  let m := String.length suffix in
  if (m <=? n)%nat then String.eqb (substring (n - m) m s) suffix else false.

(** [s.endswith((t1, t2, ...))]: true when [s] ends with one of the tuple. *)
Definition endswith_any (s : string) (suffixes : list string) : bool :=
  existsb (endswith s) suffixes.

(** [s.startswith(prefix)]. *)
Definition startswith (s p : string) : bool := String.prefix p s.

End Py.

(* ===================================================================== *)
(** ** OpenCV objects *)
(* ===================================================================== *)

Module Cv.
Import Py.

Definition Point : Type := (Z * Z)%type.
Definition Color : Type := (Z * Z * Z)%type.

(** A drawing call made on a frame.  The raster itself is not modelled: an
    annotated frame is the decoded frame together with the calls made on it,
    in order, with the arguments the source passes. *)
Inductive DrawOp : Type :=
| Rectangle (pt1 pt2 : Point) (color : Color) (thickness : Z)
| PutText (text : string) (org : Point) (font_scale : Q) (color : Color) (thickness : Z)
(* frame[:rows] = cv2.addWeighted(frame[:rows], alpha, overlay, beta, 0), where
   the overlay is a black band carrying the listed texts *)
| BlendBand (rows : Z) (alpha : Q) (texts : list (string * Point)) (beta : Q).

(** A frame (numpy array of shape (height, width, 3)). *)
Record Frame : Type := {
  height : Z;
  width : Z;
  raster : nat;            (* the decoded pixels, opaque *)
  drawn : list DrawOp      (* what has been drawn on top of them *)
}.

Definition draw (f : Frame) (ops : list DrawOp) : Frame :=
  {| height := height f; width := width f; raster := raster f;
     drawn := drawn f ++ ops |}.

(** The coordinates the cv2 bindings take are C ints. *)
Definition INT_MIN : Z := -2147483648.
Definition INT_MAX : Z := 2147483647.
Definition fits_int (z : Z) : bool := (INT_MIN <=? z) && (z <=? INT_MAX).
Definition is_point (p : Point) : bool := fits_int (fst p) && fits_int (snd p).

(** [cv2.rectangle(img, pt1, pt2, color, thickness)]: the bindings raise
    [cv2.error] when a coordinate does not fit a C int. *)
Definition rectangle (img : Frame) (pt1 pt2 : Point) (color : Color)
    (thickness : Z) : exn + Frame :=
  if is_point pt1 && is_point pt2
  then inr (draw img [Rectangle pt1 pt2 color thickness])
  else inl CvError.

(** [cv2.putText(img, text, org, FONT_HERSHEY_SIMPLEX, fontScale, color,
    thickness)]. *)
Definition putText (img : Frame) (text : string) (org : Point) (font_scale : Q)
    (color : Color) (thickness : Z) : exn + Frame :=
  if is_point org
  then inr (draw img [PutText text org font_scale color thickness])
  else inl CvError.

(** The pixels of an image: column and row, from 0. *)
Definition in_image (f : Frame) (p : Point) : bool :=
  (0 <=? fst p) && (fst p <? width f) && (0 <=? snd p) && (snd p <? height f).

(** The pixels a drawing call can change on an image.  cv2 clips every call
    to the image it draws on.  A filled rectangle (negative thickness)
    changes the pixels of the image between its corners, corners included;
    for an outline, a text and the band, whose exact pixels depend on stroke
    and font, this is an upper bound: the pixels of the image, of its top
    rows for the band. *)
Definition may_paint (f : Frame) (op : DrawOp) (p : Point) : bool :=
  in_image f p &&
  match op with
  | Rectangle pt1 pt2 _ thickness =>
      if thickness <? 0 then
        (Z.min (fst pt1) (fst pt2) <=? fst p) && (fst p <=? Z.max (fst pt1) (fst pt2)) &&
        (Z.min (snd pt1) (snd pt2) <=? snd p) && (snd p <=? Z.max (snd pt1) (snd pt2))
      else true
  | PutText _ _ _ _ _ => true
  | BlendBand rows _ _ _ => snd p <? rows
  end.

(** What a container holds: the properties [cap.get] reports (floats) and the
    frames [cap.read] decodes, in order. *)
Record Video : Type := {
  CAP_PROP_FPS : Q;
  CAP_PROP_FRAME_WIDTH : Q;
  CAP_PROP_FRAME_HEIGHT : Q;
  CAP_PROP_FRAME_COUNT : Q;
  frames : list Frame
}.

(** A [cv2.VideoCapture] object. *)
Record VideoCapture : Type := {
  cap_source : option Video;   (* None: the path could not be opened *)
  cap_released : bool
}.

Definition isOpened (cap : VideoCapture) : bool :=
  match cap_source cap with
  | Some _ => negb (cap_released cap)
  | None => false
  end.

(** A [cv2.VideoWriter] object.  The constructor does not raise when the
    container cannot be created: it yields a writer that is not opened, on
    which [write] does nothing. *)
Record VideoWriter : Type := {
  wr_path : string;
  wr_fourcc : string;
  wr_fps : Z;
  wr_frameSize : Z * Z;
  wr_opened : bool;
  wr_frames : list Frame;      (* frames encoded so far *)
  wr_released : bool
}.

Definition write (out : VideoWriter) (f : Frame) : VideoWriter :=
  if wr_opened out && negb (wr_released out) then
    {| wr_path := wr_path out; wr_fourcc := wr_fourcc out; wr_fps := wr_fps out;
       wr_frameSize := wr_frameSize out; wr_opened := wr_opened out;
       wr_frames := wr_frames out ++ [f]; wr_released := wr_released out |}
  else out.

Definition release_writer (out : VideoWriter) : VideoWriter :=
  {| wr_path := wr_path out; wr_fourcc := wr_fourcc out; wr_fps := wr_fps out;
     wr_frameSize := wr_frameSize out; wr_opened := wr_opened out;
     wr_frames := wr_frames out; wr_released := true |}.

Definition release_capture (cap : VideoCapture) : VideoCapture :=
  {| cap_source := cap_source cap; cap_released := true |}.

End Cv.

(* ===================================================================== *)
(** ** Process state, environment and the monad of the embedding *)
(* ===================================================================== *)

Module Runtime.
Import Py Cv.

(** One box of a model result: [boxes.xyxy[i]], [boxes.conf[i]], [boxes.cls[i]]. *)
Record RawBox : Type := {
  xyxy : Q * Q * Q * Q;
  conf : Q;
  cls : Z
}.

(** What [self.model(frame, conf=..., iou=..., verbose=False)] does: it raises,
    or returns a list of results, each with [boxes] that may be [None]. *)
Inductive ModelOutput : Type :=
| ModelRaises (msg : string)
| ModelReturns (results : list (option (list RawBox))).

(** What the code consults and does not change. *)
Record Env : Type := {
  now : nat -> Q;                           (* value of the n-th time.time() call *)
  yolo : Frame -> Q -> Q -> ModelOutput;    (* the wrapped model *)
  yolo_names : Z -> option string;          (* self.model.names *)
  getTextSize : string -> Z * Z;            (* cv2.getTextSize(text, FONT_HERSHEY_SIMPLEX, 0.5, 2)[0] *)
  video_at : string -> option Video;        (* what cv2.VideoCapture(path) can open *)
  writable : string -> bool;                (* whether a file can be created at the path *)
  info_enabled : bool;                      (* logging.getLogger(__name__).isEnabledFor(INFO) *)
  str_lower : string -> string              (* s.lower(), on texts held as UTF-8 *)
}.

(** The [SportsDetector] object (one per process: [main.detector], which
    [VideoProcessor.detector] aliases). *)
Record SportsDetector : Type := {
  sports_classes : list (Z * string);
  confidence_threshold : Q;
  iou_threshold : Q;
  total_inferences : Z;
  total_inference_time : Q
}.

(** [SportsDetector.__init__]. *)
Definition SportsDetector_init : SportsDetector :=
  {| sports_classes := [(0, "person"); (32, "sports ball"); (36, "skis"); (37, "snowboard")];
     confidence_threshold := 0.5;
     iou_threshold := 0.45;
     total_inferences := 0;
     total_inference_time := 0 |}.

Inductive LogLevel : Type := INFO | ERROR.

(** The mutable state of the process. *)
Record World : Type := {
  ticks : nat;                       (* time.time() calls made so far *)
  detector : SportsDetector;
  cap : option VideoCapture;         (* the capture of the running process_video *)
  out : option VideoWriter;          (* its writer *)
  files : list string;               (* paths of the files on disk *)
  log : list (LogLevel * string);
  detect_calls : list Z              (* ghost: frame numbers handed to detect_frame *)
}.

Definition initial_world : World :=
  {| ticks := 0; detector := SportsDetector_init; cap := None; out := None;
     files := []; log := []; detect_calls := [] |}.

Definition set_ticks (n : nat) (w : World) : World :=
  {| ticks := n; detector := detector w; cap := cap w; out := out w;
     files := files w; log := log w; detect_calls := detect_calls w |}.
Definition set_detector (d : SportsDetector) (w : World) : World :=
  {| ticks := ticks w; detector := d; cap := cap w; out := out w;
     files := files w; log := log w; detect_calls := detect_calls w |}.
Definition set_cap (c : option VideoCapture) (w : World) : World :=
  {| ticks := ticks w; detector := detector w; cap := c; out := out w;
     files := files w; log := log w; detect_calls := detect_calls w |}.
Definition set_out (o : option VideoWriter) (w : World) : World :=
  {| ticks := ticks w; detector := detector w; cap := cap w; out := o;
     files := files w; log := log w; detect_calls := detect_calls w |}.
Definition set_files (fs : list string) (w : World) : World :=
  {| ticks := ticks w; detector := detector w; cap := cap w; out := out w;
     files := fs; log := log w; detect_calls := detect_calls w |}.
Definition set_log (l : list (LogLevel * string)) (w : World) : World :=
  {| ticks := ticks w; detector := detector w; cap := cap w; out := out w;
     files := files w; log := l; detect_calls := detect_calls w |}.
Definition set_detect_calls (l : list Z) (w : World) : World :=
  {| ticks := ticks w; detector := detector w; cap := cap w; out := out w;
     files := files w; log := log w; detect_calls := l |}.

(** A computation runs on a world and ends with a value or a raised
    exception; either way the world it leaves behind is kept, so that what an
    exception leaves open can be inspected. *)
Definition M (A : Type) : Type := World -> (exn + A) * World.

Definition ret {A} (a : A) : M A := fun w => (inr a, w).

Definition bind {A B} (c : M A) (k : A -> M B) : M B :=
  fun w => match c w with
           | (inr a, w') => k a w'
           | (inl e, w') => (inl e, w')
           end.

Definition raise {A} (e : exn) : M A := fun w => (inl e, w).

(** [try: body  except Exception as e: handler(e)]. *)
Definition try_except {A} (body : M A) (handler : exn -> M A) : M A :=
  fun w => match body w with
           | (inr a, w') => (inr a, w')
           | (inl e, w') => handler e w'
           end.

(** A pure operation that may raise. *)
Definition lift {A} (r : exn + A) : M A := fun w => (r, w).

Definition modify (f : World -> World) : M unit := fun w => (inr tt, f w).
Definition gets {A} (f : World -> A) : M A := fun w => (inr (f w), w).

Declare Scope py_scope.
Delimit Scope py_scope with py.
Notation "x <- c ;; k" := (bind c (fun x => k))
  (at level 61, c at next level, right associativity) : py_scope.
Notation "c ;;; k" := (bind c (fun _ => k))
  (at level 61, right associativity) : py_scope.

Section WithEnv.
Variable env : Env.

(** [time.time()]. *)
Definition time_time : M Q :=
  fun w => (inr (now env (ticks w)), set_ticks (S (ticks w)) w).

(** [logger.error(msg)] on a standard-library logger. *)
Definition logger_error (msg : string) : M unit :=
  modify (fun w => set_log (log w ++ [(ERROR, msg)]) w).

(** [logger.info(msg)] on a standard-library logger: a record when INFO is
    enabled, nothing otherwise. *)
Definition logger_info (msg : string) : M unit :=
  if info_enabled env then modify (fun w => set_log (log w ++ [(INFO, msg)]) w)
  else ret tt.

(** [logger.info(msg, **fields)] on a standard-library logger with at least
    one field: when INFO is enabled the call reaches [Logger._log], which
    takes no such keyword and raises TypeError; when INFO is disabled the
    call returns before that. *)
Definition logger_info_kwargs (msg : string) (fields : list string) : M unit :=
  if info_enabled env then
    match fields with
    | [] => modify (fun w => set_log (log w ++ [(INFO, msg)]) w)
    | _ :: _ => raise TypeError
    end
  else ret tt.

(** [logger.info(msg, **fields)] and [logger.error(msg, **fields)] on the
    structlog logger of app/main.py, which takes the fields. *)
Definition structlog (level : LogLevel) (msg : string) : M unit :=
  modify (fun w => set_log (log w ++ [(level, msg)]) w).

End WithEnv.

End Runtime.

(* ===================================================================== *)
(** ** app/models/yolo_detector.py *)
(* ===================================================================== *)

Module Detector.
Import Py Cv Runtime.
Local Open Scope py_scope.

(** A detection dictionary.  ['sports_role'] is a key that may be absent. *)
Record Detection : Type := {
  det_id : nat;                     (* 'id' *)
  det_class : string;               (* 'class' *)
  det_class_id : Z;                 (* 'class_id' *)
  det_confidence : Q;               (* 'confidence' *)
  det_bbox : Q * Q * Q * Q;         (* 'bbox' *)
  det_center : Q * Q;               (* 'center' *)
  det_area : Q;                     (* 'area' *)
  det_sports_role : option string   (* 'sports_role' *)
}.

(** The dictionary [detect_frame] returns.  ['detections'] and
    ['inference_time'] are always there; the other keys may be absent. *)
Record DetectResult : Type := {
  detections : list Detection;
  inference_time : Q;
  frame_shape : option (Z * Z * Z);
  model_confidence : option Q;
  error : option exn               (* 'error': str(e) *)
}.

(** [SportsDetector._classify_person_role]. *)
Definition _classify_person_role (detection : Detection) : string :=
  let area := det_area detection in
  if Qgtb area 5000 then "player"
  else if Qgtb area 2000 then "referee_or_coach"
  else "spectator_or_other".

(** [cls_id in self.sports_classes]. *)
Definition is_sports_class (self : SportsDetector) (cls_id : Z) : bool :=
  existsb (fun kv => fst kv =? cls_id) (sports_classes self).

Section WithEnv.
Variable env : Env.

(** The body of [for i, (box, conf, cls_id) in enumerate(zip(...))], for one
    box: the detection to append, if any; a class id missing from
    [self.model.names] raises KeyError. *)
Definition detection_of_box (self : SportsDetector) (i : nat) (b : RawBox)
  : exn + option Detection :=
  let cls_id := cls b in
  if is_sports_class self cls_id || (cls_id =? 0) then
    let '(x1, y1, x2, y2) := xyxy b in
    match yolo_names env cls_id with
    | None => inl (KeyError cls_id)
    | Some name =>
        let detection :=
          {| det_id := i;
             det_class := name;
             det_class_id := cls_id;
             det_confidence := conf b;
             det_bbox := (x1, y1, x2, y2);
             det_center := ((x1 + x2) / 2, (y1 + y2) / 2)%Q;
             det_area := ((x2 - x1) * (y2 - y1))%Q;
             det_sports_role := None |} in
        let role :=
          if cls_id =? 0 then Some (_classify_person_role detection)
          else if cls_id =? 32 then Some "ball"
          else None in
        inr (Some {| det_id := det_id detection;
                     det_class := det_class detection;
                     det_class_id := det_class_id detection;
                     det_confidence := det_confidence detection;
                     det_bbox := det_bbox detection;
                     det_center := det_center detection;
                     det_area := det_area detection;
                     det_sports_role := role |})
    end
  else inr None.

(** The [for] loop over the boxes, from index [i], appending to [acc]. *)
Fixpoint extract_boxes (self : SportsDetector) (i : nat) (boxes : list RawBox)
    (acc : list Detection) : exn + list Detection :=
  match boxes with
  | [] => inr acc
  | b :: rest =>
      match detection_of_box self i b with
      | inl e => inl e
      | inr (Some d) => extract_boxes self (S i) rest (acc ++ [d])
      | inr None => extract_boxes self (S i) rest acc
      end
  end.

(** [if results and len(results) > 0: result = results[0]; if result.boxes is
    not None: ...]. *)
Definition extract_detections (self : SportsDetector)
    (results : list (option (list RawBox))) : exn + list Detection :=
  match results with
  | Some boxes :: _ => extract_boxes self 0 boxes []
  | None :: _ => inr []
  | [] => inr []
  end.

(** [self.model(frame, conf=..., iou=..., verbose=False)]. *)
Definition run_model (self : SportsDetector) (frame : Frame)
  : M (list (option (list RawBox))) :=
  match yolo env frame (confidence_threshold self) (iou_threshold self) with
  | ModelRaises msg => raise (ModelError msg)
  | ModelReturns results => ret results
  end.

(** The [try] block of [detect_frame]. *)
Definition detect_frame_try (frame : Frame) (start_time : Q) : M DetectResult :=
  self <- gets detector ;;
  results <- run_model self frame ;;
  dets <- lift (extract_detections self results) ;;
  t <- time_time env ;;
  let inference_time := (t - start_time)%Q in
  modify (fun w =>
    set_detector
      {| sports_classes := sports_classes (detector w);
         confidence_threshold := confidence_threshold (detector w);
         iou_threshold := iou_threshold (detector w);
         total_inferences := total_inferences (detector w) + 1;
         total_inference_time := (total_inference_time (detector w) + inference_time)%Q |}
      w) ;;;
  ret {| detections := dets;
         inference_time := inference_time;
         frame_shape := Some (height frame, width frame, 3);
         model_confidence := Some (confidence_threshold self);
         error := None |}.

(** The [except Exception as e] block of [detect_frame]. *)
Definition detect_frame_except (start_time : Q) (e : exn) : M DetectResult :=
  logger_error "Detection failed" ;;;
  t <- time_time env ;;
  ret {| detections := [];
         inference_time := (t - start_time)%Q;
         frame_shape := None;
         model_confidence := None;
         error := Some e |}.

(** [SportsDetector.detect_frame]. *)
Definition detect_frame (frame : Frame) : M DetectResult :=
  start_time <- time_time env ;;
  try_except (detect_frame_try frame start_time) (detect_frame_except start_time).

(** The label of a detection:
    [f"{class_name}: {confidence:.2f}"], then [f" ({det['sports_role']})"]
    when the key is there. *)
Definition label_of (det : Detection) : string :=
  let label := (det_class det ++ ": " ++ format_f 2 (det_confidence det))%string in
  match det_sports_role det with
  | Some role => (label ++ " (" ++ role ++ ")")%string
  | None => label
  end.

(** [colors.get(class_name, colors['default'])]. *)
Definition color_of (class_name : string) : Color :=
  if String.eqb class_name "person" then (0, 255, 0)
  else if String.eqb class_name "sports ball" then (0, 0, 255)
  else (255, 255, 0).

(** [label_y = max(y1 - 10, label_size[1])]. *)
Definition label_y_of (y1 : Z) (label_size : Z * Z) : Z :=
  Z.max (y1 - 10) (snd label_size).

(** One iteration of [for det in detections]: the bounding box, the filled
    label background, the label text, each drawn on what the call before
    returned; what a call raises ends the iteration.  [map(int, bbox)]
    truncates the four corners, which are finite floats here. *)
Definition draw_one (annotated_frame : Frame) (det : Detection) : exn + Frame :=
  let '(bx1, by1, bx2, by2) := det_bbox det in
  let x1 := py_int bx1 in
  let y1 := py_int by1 in
  let x2 := py_int bx2 in
  let y2 := py_int by2 in
  let color := color_of (det_class det) in
  match rectangle annotated_frame (x1, y1) (x2, y2) color 2 with
  | inl e => inl e
  | inr annotated_frame =>
      let label := label_of det in
      let label_size := getTextSize env label in
      let label_y := label_y_of y1 label_size in
      match rectangle annotated_frame (x1, label_y - snd label_size - 5)
              (x1 + fst label_size, label_y + 5) color (-1) with
      | inl e => inl e
      | inr annotated_frame =>
          putText annotated_frame label (x1, label_y) 0.5 (255, 255, 255) 2
      end
  end.

(** [SportsDetector.draw_detections]: the loop over the detections, on
    [annotated_frame = frame.copy()].  When a call raises, what was drawn so
    far is lost with the copy. *)
Fixpoint draw_detections (frame : Frame) (dets : list Detection) : exn + Frame :=
  match dets with
  | [] => inr frame
  | det :: rest =>
      match draw_one frame det with
      | inl e => inl e
      | inr annotated_frame => draw_detections annotated_frame rest
      end
  end.

End WithEnv.

End Detector.

(* ===================================================================== *)
(** ** app/utils/videoprocessor.py *)
(* ===================================================================== *)

Module Pipeline.
Import Py Cv Runtime Detector.
Local Open Scope py_scope.

(** The [VideoProcessor] object.  Its [detector] attribute is the process's
    one detector, kept in the world. *)
Record VideoProcessor : Type := {
  frame_skip : Z
}.

(** [VideoProcessor.__init__]. *)
Definition VideoProcessor_init : VideoProcessor := {| frame_skip := 1 |}.

(** The local variables of [process_video] that the frame loop updates. *)
Record Locals : Type := {
  processed_frames : Z;
  total_detections : Z;
  frame_times : list Q;
  frame_num : Z
}.

Definition initial_locals : Locals :=
  {| processed_frames := 0; total_detections := 0; frame_times := []; frame_num := 0 |}.

(** The ['video_properties'] entry of the result. *)
Record VideoProperties : Type := {
  vp_width : Z;
  vp_height : Z;
  vp_fps : Z;
  vp_duration_seconds : Q
}.

(** The dictionary [process_video] returns. *)
Record ProcessingResult : Type := {
  res_input_path : string;
  res_output_path : string;
  res_total_frames : Z;
  res_processed_frames : Z;
  res_processing_time : Q;
  res_avg_frame_time : Q;
  res_fps_processed : Q;
  res_total_detections : Z;
  res_avg_detections_per_frame : Q;
  res_video_properties : VideoProperties
}.

(** The keys passed as keyword arguments to the closing [logger.info]: all
    but ['input_path'] and ['output_path']. *)
Definition logged_keys : list string :=
  ["total_frames"; "processed_frames"; "processing_time"; "avg_frame_time";
   "fps_processed"; "total_detections"; "avg_detections_per_frame";
   "video_properties"].

Definition overlay_height : Z := 80.

(** [VideoProcessor._add_frame_overlay].  [overlay_frame[:overlay_height]] has
    [min(height, overlay_height)] rows and the overlay has [overlay_height]:
    [cv2.addWeighted] takes two arrays of one size and raises otherwise. *)
Definition _add_frame_overlay (frame : Frame) (frame_num : Z)
    (detection_count : Z) (frame_time : Q) : exn + Frame :=
  let text1 := ("Frame: " ++ str_Z frame_num)%string in
  let text2 := ("Detections: " ++ str_Z detection_count)%string in
  let text3 := ("Process Time: " ++ format_f 3 frame_time ++ "s")%string in
  let text4 :=
    if Qgtb frame_time 0 then ("FPS: " ++ format_f 1 (1 / frame_time)%Q)%string
    else "FPS: --" in
  let texts := [(text1, (10, 20)); (text2, (10, 45)); (text3, (250, 20)); (text4, (250, 45))] in
  if Z.min (height frame) overlay_height =? overlay_height then
    inr (draw frame [BlendBand overlay_height 0.7 texts 0.3])
  else inl CvError.

(** [cap.get(prop)]: 0.0 on a capture that is not opened. *)
Definition cap_get (c : VideoCapture) (prop : Video -> Q) : Q :=
  match cap_source c with
  | Some v => prop v
  | None => 0%Q
  end.

(** The frames [cap.read()] will deliver, one per call, before it returns
    [(False, None)]. *)
Definition cap_frames (c : VideoCapture) : list Frame :=
  match cap_source c with
  | Some v => if cap_released c then [] else frames v
  | None => []
  end.

(** [out.write(frame)]. *)
Definition out_write (f : Frame) : M unit :=
  modify (fun w => set_out (option_map (fun o => write o f) (out w)) w).

(** Ghost: records that [detect_frame] is called on frame [n]. *)
Definition note_detect (n : Z) : M unit :=
  modify (fun w => set_detect_calls (detect_calls w ++ [n]) w).

(** [np.mean(frame_times)]. *)
Definition mean (l : list Q) : Q :=
  (fold_right Qplus 0 l / inject_Z (Z.of_nat (List.length l)))%Q.

Section WithEnv.
Variable env : Env.

(** The [while True] loop of [process_video], by recursion on the frames
    [cap.read()] delivers: [[]] is the [break] on [ret == False]. *)
Fixpoint frame_loop (self : VideoProcessor) (total_frames : Z)
    (pending : list Frame) (st : Locals) : M Locals :=
  match pending with
  | [] => ret st
  | frame :: rest =>
      r <- lift (py_mod (frame_num st) (frame_skip self)) ;;
      if negb (r =? 0) then
        (* skipped frame: written as read *)
        out_write frame ;;;
        frame_loop self total_frames rest
          {| processed_frames := processed_frames st;
             total_detections := total_detections st;
             frame_times := frame_times st;
             frame_num := frame_num st + 1 |}
      else
        frame_start <- time_time env ;;
        note_detect (frame_num st) ;;;
        results <- detect_frame env frame ;;
        t <- time_time env ;;
        let frame_time := (t - frame_start)%Q in
        let count := Z.of_nat (List.length (detections results)) in
        annotated_frame <- lift (draw_detections env frame (detections results)) ;;
        annotated_frame <- lift (_add_frame_overlay annotated_frame (frame_num st)
                                   count frame_time) ;;
        out_write annotated_frame ;;;
        let processed := processed_frames st + 1 in
        (if processed mod 100 =? 0 then
           (* progress = (frame_num / total_frames) * 100 *)
           progress <- lift (py_truediv (frame_num st) total_frames) ;;
           logger_info env "Progress"
         else ret tt) ;;;
        (* frame_num += 1; every 10 processed frames: await asyncio.sleep(0.001),
           a yield to the scheduler that changes nothing here *)
        frame_loop self total_frames rest
          {| processed_frames := processed;
             total_detections := total_detections st + count;
             frame_times := frame_times st ++ [frame_time];
             frame_num := frame_num st + 1 |}
  end.

(** [cv2.VideoWriter(output_path, fourcc, fps, (width, height))]: the file is
    created when the path is writable. *)
Definition open_writer (output_path : string) (fps width height : Z) : M unit :=
  let opened := writable env output_path in
  modify (fun w =>
    set_out (Some {| wr_path := output_path; wr_fourcc := "mp4v"; wr_fps := fps;
                     wr_frameSize := (width, height); wr_opened := opened;
                     wr_frames := []; wr_released := false |})
      (if opened then set_files (output_path :: files w) w else w)).

(** The "Cleanup" and "Calculate final metrics" parts of [process_video]. *)
Definition finish (input_path output_path : string) (start_time : Q)
    (fps width height total_frames : Z) (st : Locals) : M ProcessingResult :=
  modify (fun w => set_cap (option_map release_capture (cap w)) w) ;;;
  modify (fun w => set_out (option_map release_writer (out w)) w) ;;;
  t <- time_time env ;;
  let processing_time := (t - start_time)%Q in
  let avg_frame_time :=
    match frame_times st with [] => 0%Q | _ :: _ => mean (frame_times st) end in
  avg_detections <-
    (if 0 <? processed_frames st
     then lift (py_truediv (total_detections st) (processed_frames st))
     else ret 0%Q) ;;
  duration <- (if 0 <? fps then lift (py_truediv total_frames fps) else ret 0%Q) ;;
  let results :=
    {| res_input_path := input_path;
       res_output_path := output_path;
       res_total_frames := total_frames;
       res_processed_frames := processed_frames st;
       res_processing_time := processing_time;
       res_avg_frame_time := avg_frame_time;
       res_fps_processed :=
         (if Qgtb processing_time 0
          then inject_Z (processed_frames st) / processing_time else 0)%Q;
       res_total_detections := total_detections st;
       res_avg_detections_per_frame := avg_detections;
       res_video_properties :=
         {| vp_width := width; vp_height := height; vp_fps := fps;
            vp_duration_seconds := duration |} |} in
  logger_info_kwargs env "Video processing completed" logged_keys ;;;
  ret results.

(** The [try] block of [process_video]. *)
Definition process_video_try (self : VideoProcessor) (input_path output_path : string)
    (start_time : Q) : M ProcessingResult :=
  let c := {| cap_source := video_at env input_path; cap_released := false |} in
  modify (set_cap (Some c)) ;;;
  if negb (isOpened c) then
    raise (ValueError ("Could not open video: " ++ input_path)%string)
  else
    let fps := py_int (cap_get c CAP_PROP_FPS) in
    let width := py_int (cap_get c CAP_PROP_FRAME_WIDTH) in
    let height := py_int (cap_get c CAP_PROP_FRAME_HEIGHT) in
    let total_frames := py_int (cap_get c CAP_PROP_FRAME_COUNT) in
    logger_info env "Processing video" ;;;
    open_writer output_path fps width height ;;;
    st <- frame_loop self total_frames (cap_frames c) initial_locals ;;
    finish input_path output_path start_time fps width height total_frames st.

(** [VideoProcessor.process_video]: the [try] block, and
    [except Exception as e: logger.error(...); raise]. *)
Definition process_video (self : VideoProcessor) (input_path output_path : string)
  : M ProcessingResult :=
  start_time <- time_time env ;;
  try_except (process_video_try self input_path output_path start_time)
             (fun e => logger_error "Video processing failed" ;;; raise e).

End WithEnv.

End Pipeline.

(* ===================================================================== *)
(** ** app/main.py *)
(* ===================================================================== *)

Module Api.
Import Py Cv Runtime Detector Pipeline.
Local Open Scope py_scope.

(** An uploaded file: its name and its bytes. *)
Record UploadFile : Type := {
  filename : string;
  contents : list Byte.byte
}.

(** A call scheduled with [background_tasks.add_task(process_video_background,
    input_path, output_path, timestamp)]: a job. *)
Record Task : Type := {
  task_input_path : string;
  task_output_path : string;
  task_job_id : Z
}.

(** The module-level state of app/main.py: whether the global [detector] is
    set ([startup_event] sets it), and the scheduled background tasks. *)
Record Server : Type := {
  detector_loaded : bool;
  background_tasks : list Task
}.

Inductive Detail : Type :=
| Text (s : string)
| StrOf (e : exn).          (* str(e) *)

(** What the client gets: the handler's dictionary (status 200), or the
    status and detail of a raised [HTTPException]. *)
Inductive Response : Type :=
| Started (message : string) (job_id : Z) (status_url : string) (input_file : string)
| HTTPException (status_code : Z) (detail : Detail).

Definition status_code_of (r : Response) : Z :=
  match r with
  | Started _ _ _ _ => 200
  | HTTPException c _ => c
  end.

Definition allowed_suffixes : list string := [".mp4"; ".avi"; ".mov"; ".mkv"].

Definition uploads_dir : string := "app/static/uploads/".
Definition outputs_dir : string := "app/static/outputs/".

Section WithEnv.
Variable env : Env.

(** [with open(path, "wb") as buffer: buffer.write(...)]. *)
Definition save_file (path : string) : M unit :=
  if writable env path then modify (fun w => set_files (path :: files w) w)
  else raise (OSError path).

(** [detect_objects_video], the handler of POST /detect/video. *)
Definition detect_objects_video (srv : Server) (file : UploadFile)
  : M (Response * Server) :=
  if negb (detector_loaded srv) then
    ret (HTTPException 503 (Text "Model not loaded"), srv)
  else if negb (endswith_any (str_lower env (filename file)) allowed_suffixes) then
    ret (HTTPException 400 (Text "Invalid video format"), srv)
  else
    try_except
      ( t <- time_time env ;;
        let timestamp := py_int t in
        let input_path :=
          (uploads_dir ++ str_Z timestamp ++ "_" ++ filename file)%string in
        let output_path :=
          (outputs_dir ++ str_Z timestamp ++ "_processed_" ++ filename file)%string in
        save_file input_path ;;;
        let task := {| task_input_path := input_path;
                       task_output_path := output_path;
                       task_job_id := timestamp |} in
        ret (Started "Video processing started" timestamp
               ("/status/" ++ str_Z timestamp)%string (filename file),
             {| detector_loaded := detector_loaded srv;
                background_tasks := background_tasks srv ++ [task] |}) )
      (fun e =>
         structlog ERROR "Video upload failed" ;;;
         ret (HTTPException 500 (StrOf e), srv)).

(** [output_dir.glob(f"{job_id}_processed_*")]. *)
Definition processed_files (job_id : Z) (w : World) : list string :=
  filter (fun p => startswith p (outputs_dir ++ str_Z job_id ++ "_processed_")%string)
         (files w).

(** The ["status"] entry of what [get_processing_status] returns. *)
Definition get_processing_status (job_id : Z) (w : World) : string :=
  match processed_files job_id w with
  | _ :: _ => "completed"
  | [] => "processing"
  end.

(** [os.remove(path)]. *)
Definition os_remove (path : string) : M unit :=
  fun w =>
    if existsb (String.eqb path) (files w)
    then (inr tt, set_files (filter (fun p => negb (String.eqb path p)) (files w)) w)
    else (inl (OSError path), w).

(** [process_video_background], run with the global [video_processor]. *)
Definition process_video_background (video_processor : VideoProcessor)
    (input_path output_path : string) (job_id : Z) : M unit :=
  try_except
    ( structlog INFO "Starting video processing" ;;;
      results <- process_video env video_processor input_path output_path ;;
      structlog INFO "Video processing completed" ;;;
      os_remove input_path )
    (fun e => structlog ERROR "Video processing failed").

End WithEnv.

End Api.

(* ===================================================================== *)
(** ** Notions used to state the properties *)
(* ===================================================================== *)

Module Props.
Import Py Cv Runtime Detector Pipeline Api.

(** The frame numbers [n], [n+1], ..., of [len] frames in a row. *)
Fixpoint frame_numbers (n : Z) (len : nat) : list Z :=
  match len with
  | O => []
  | S len' => n :: frame_numbers (n + 1) len'
  end.

(** [n % k == 0], for a stride [k] that is not zero. *)
Definition selected (k n : Z) : bool := n mod k =? 0.

(** Two detector objects that differ at most in their running totals. *)
Definition same_config (d d' : SportsDetector) : Prop :=
  sports_classes d = sports_classes d' /\
  confidence_threshold d = confidence_threshold d' /\
  iou_threshold d = iou_threshold d'.

(** The model raises on the frame. *)
Definition poisoned (env : Env) (self : SportsDetector) (frame : Frame) : Prop :=
  exists msg,
    yolo env frame (confidence_threshold self) (iou_threshold self) = ModelRaises msg.

(** The detections [detect_frame] reports for a frame: those extracted from
    the model's results, none when anything in its [try] block raises. *)
Definition detections_for (env : Env) (self : SportsDetector) (frame : Frame)
  : list Detection :=
  match yolo env frame (confidence_threshold self) (iou_threshold self) with
  | ModelRaises _ => []
  | ModelReturns results =>
      match extract_detections env self results with
      | inr dets => dets
      | inl _ => []
      end
  end.

(** [g] is what the pipeline writes for frame [frame] numbered [n]: the frame
    as read when it is skipped, otherwise the frame with its detections drawn
    and the information band added, for some measured time. *)
Definition written_for (env : Env) (k : Z) (self : SportsDetector) (n : Z)
    (frame g : Frame) : Prop :=
  if selected k n then
    exists annotated_frame frame_time,
      draw_detections env frame (detections_for env self frame) = inr annotated_frame /\
      _add_frame_overlay annotated_frame n
        (Z.of_nat (List.length (detections_for env self frame))) frame_time = inr g
  else g = frame.

(** [Written env k self n pending written]: [written] holds, in order, what
    the pipeline writes for the frames [pending], numbered from [n]. *)
Inductive Written (env : Env) (k : Z) (self : SportsDetector)
  : Z -> list Frame -> list Frame -> Prop :=
| Written_nil : forall n, Written env k self n [] []
| Written_cons : forall n f g fs gs,
    written_for env k self n f g ->
    Written env k self (n + 1) fs gs ->
    Written env k self n (f :: fs) (g :: gs).

(** The role a detection must carry: by its area when it is a person (class
    0), "ball" when it is a sports ball (class 32). *)
Definition role_by_area (d : Detection) : Prop :=
  (det_class_id d = 0 ->
     ((5000 < det_area d)%Q -> det_sports_role d = Some "player") /\
     ((2000 < det_area d)%Q /\ (det_area d <= 5000)%Q ->
        det_sports_role d = Some "referee_or_coach") /\
     ((det_area d <= 2000)%Q -> det_sports_role d = Some "spectator_or_other")) /\
  (det_class_id d = 32 -> det_sports_role d = Some "ball").

(** The frame is high enough for the information band. *)
Definition band_fits (f : Frame) : Prop := overlay_height <= height f.

(** The text after the last dot of a name, if it has a dot. *)
Fixpoint extension (s : string) : option string :=
  match s with
  | EmptyString => None
  | String c r =>
      match extension r with
      | Some e => Some e
      | None => if Ascii.eqb c "." then Some r else None
      end
  end.

Definition allowed_extensions : list string := ["mp4"; "avi"; "mov"; "mkv"].

(** The extension of the name, compared without regard to case (on the
    name lowered by [str.lower]), is one of the allowed ones. *)
Definition has_allowed_extension (env : Env) (name : string) : bool :=
  match extension (str_lower env name) with
  | Some e => existsb (String.eqb e) allowed_extensions
  | None => false
  end.

(** The outcome and the final world of a run. *)
Definition outcome {A} (r : (exn + A) * World) : exn + A := fst r.
Definition final {A} (r : (exn + A) * World) : World := snd r.

(** The frames the writer of a world holds; none when there is no writer. *)
Definition written_frames (w : World) : list Frame :=
  match out w with
  | Some o => wr_frames o
  | None => []
  end.

(** Both handles of the world have been released. *)
Definition handles_released (w : World) : bool :=
  match cap w, out w with
  | Some c, Some o => cap_released c && wr_released o
  | _, _ => false
  end.

(** The dictionary [process_video] builds at the end of a run that reaches
    its "Calculate final metrics" part, from the locals at that point. *)
Definition result_of (input_path output_path : string)
    (fps width height total_frames : Z) (st : Locals) (processing_time : Q)
  : ProcessingResult :=
  {| res_input_path := input_path;
     res_output_path := output_path;
     res_total_frames := total_frames;
     res_processed_frames := processed_frames st;
     res_processing_time := processing_time;
     res_avg_frame_time :=
       match frame_times st with [] => 0%Q | _ :: _ => mean (frame_times st) end;
     res_fps_processed :=
       (if Qgtb processing_time 0
        then inject_Z (processed_frames st) / processing_time else 0)%Q;
     res_total_detections := total_detections st;
     res_avg_detections_per_frame :=
       (if 0 <? processed_frames st
        then inject_Z (total_detections st) / inject_Z (processed_frames st)
        else 0)%Q;
     res_video_properties :=
       {| vp_width := width; vp_height := height; vp_fps := fps;
          vp_duration_seconds :=
            (if 0 <? fps then inject_Z total_frames / inject_Z fps else 0)%Q |} |}.




(** Where [draw_detections] puts the label of a detection: the row of the
    text's baseline, the rows the text spans above it, and the rows of the
    filled background rectangle. *)
Definition box_top (det : Detection) : Z :=
  let '(_, by1, _, _) := det_bbox det in py_int by1.
Definition box_left (det : Detection) : Z :=
  let '(bx1, _, _, _) := det_bbox det in py_int bx1.
Definition text_width (env : Env) (det : Detection) : Z :=
  fst (getTextSize env (label_of det)).
Definition text_height (env : Env) (det : Detection) : Z :=
  snd (getTextSize env (label_of det)).
Definition label_baseline (env : Env) (det : Detection) : Z :=
  label_y_of (box_top det) (getTextSize env (label_of det)).
Definition text_top (env : Env) (det : Detection) : Z :=
  label_baseline env det - text_height env det.
Definition background_top (env : Env) (det : Detection) : Z :=
  label_baseline env det - text_height env det - 5.
Definition background_bottom (env : Env) (det : Detection) : Z :=
  label_baseline env det + 5.

(** The three drawing calls [draw_detections] makes for a detection. *)
Definition box_call (det : Detection) : DrawOp :=
  Rectangle (box_left det, box_top det)
    (let '(_, _, bx2, by2) := det_bbox det in (py_int bx2, py_int by2))
    (color_of (det_class det)) 2.
Definition background_call (env : Env) (det : Detection) : DrawOp :=
  Rectangle (box_left det, background_top env det)
    (box_left det + text_width env det, background_bottom env det)
    (color_of (det_class det)) (-1).
Definition text_call (env : Env) (det : Detection) : DrawOp :=
  PutText (label_of det) (box_left det, label_baseline env det) 0.5
    (255, 255, 255) 2.
Definition calls_for (env : Env) (det : Detection) : list DrawOp :=
  [box_call det; background_call env det; text_call env det].

(** Every coordinate the calls for a detection pass to cv2 fits a C int. *)
Definition drawable (env : Env) (det : Detection) : bool :=
  let '(_, _, bx2, by2) := det_bbox det in
  is_point (box_left det, box_top det) && is_point (py_int bx2, py_int by2) &&
  (is_point (box_left det, background_top env det) &&
   is_point (box_left det + text_width env det, background_bottom env det)) &&
  is_point (box_left det, label_baseline env det).

End Props.

(* ===================================================================== *)
(** ** Sample inputs *)
(* ===================================================================== *)

Module Samples.
Import Py Cv Runtime Detector Pipeline Api Props.

Definition frame_of (h : Z) (n : nat) : Frame :=
  {| height := h; width := 640; raster := n; drawn := [] |}.

(** A person in the upper left corner, its box touching the frame top. *)
Definition person_box : RawBox :=
  {| xyxy := (10, 0, 110, 100)%Q; conf := 0.875; cls := 0 |}.

Definition ball_box : RawBox :=
  {| xyxy := (300, 240, 320, 260)%Q; conf := 0.75; cls := 32 |}.

Definition coco_names (c : Z) : option string :=
  if c =? 0 then Some "person"
  else if c =? 32 then Some "sports ball"
  else if c =? 36 then Some "skis"
  else if c =? 37 then Some "snowboard"
  else None.

(** Three frames of 640x480 at 30 fps. *)
Definition clip : Video :=
  {| CAP_PROP_FPS := 30; CAP_PROP_FRAME_WIDTH := 640; CAP_PROP_FRAME_HEIGHT := 480;
     CAP_PROP_FRAME_COUNT := 3;
     frames := [frame_of 480 0; frame_of 480 1; frame_of 480 2] |}.

(** One frame of 64x64: lower than the information band. *)
Definition thumbnail : Video :=
  {| CAP_PROP_FPS := 30; CAP_PROP_FRAME_WIDTH := 64; CAP_PROP_FRAME_HEIGHT := 64;
     CAP_PROP_FRAME_COUNT := 1;
     frames := [{| height := 64; width := 64; raster := 0; drawn := [] |}] |}.

(** Two frames of 64x64. *)
Definition strip : Video :=
  {| CAP_PROP_FPS := 30; CAP_PROP_FRAME_WIDTH := 64; CAP_PROP_FRAME_HEIGHT := 64;
     CAP_PROP_FRAME_COUNT := 2;
     frames := [{| height := 64; width := 64; raster := 0; drawn := [] |};
                {| height := 64; width := 64; raster := 2; drawn := [] |}] |}.

(** One frame at the NTSC rate of 29.97 fps. *)
Definition ntsc : Video :=
  {| CAP_PROP_FPS := 29.97; CAP_PROP_FRAME_WIDTH := 640; CAP_PROP_FRAME_HEIGHT := 480;
     CAP_PROP_FRAME_COUNT := 1;
     frames := [frame_of 480 0] |}.

(** 101 frames in a container that reports no frame count. *)
Definition stream : Video :=
  {| CAP_PROP_FPS := 30; CAP_PROP_FRAME_WIDTH := 640; CAP_PROP_FRAME_HEIGHT := 480;
     CAP_PROP_FRAME_COUNT := 0;
     frames := map (frame_of 480) (seq 0 101) |}.

(** An environment: a clock that advances by one second per reading, a model
    that raises on the frame whose raster is 1 and finds a person and a ball
    on every other frame, five videos on disk (the clip also as the upload
    of job 7), and a directory "/readonly/" where nothing can be created. *)
Definition sample_env (info : bool) : Env :=
  {| now := fun n => inject_Z (Z.of_nat n);
     yolo := fun f _ _ =>
               if (raster f =? 1)%nat then ModelRaises "inference failed"
               else ModelReturns [Some [person_box; ball_box]];
     yolo_names := coco_names;
     getTextSize := fun s => (9 * Z.of_nat (String.length s), 11);
     video_at := fun p => if String.eqb p "clip.mp4" then Some clip
                          else if String.eqb p "app/static/uploads/7_clip.mp4" then Some clip
                          else if String.eqb p "thumbnail.mp4" then Some thumbnail
                          else if String.eqb p "strip.mp4" then Some strip
                          else if String.eqb p "ntsc.mp4" then Some ntsc
                          else if String.eqb p "stream.mp4" then Some stream
                          else None;
     writable := fun p => negb (startswith p "/readonly/");
     info_enabled := info;
     str_lower := ascii_lower |}.

Definition person_detection : Detection :=
  {| det_id := 0; det_class := "person"; det_class_id := 0;
     det_confidence := 0.875; det_bbox := (10, 0, 110, 100)%Q;
     det_center := (60, 50)%Q; det_area := 10000; det_sports_role := Some "player" |}.

(** The result of processing the three-frame clip with the default stride,
    INFO logging disabled. *)
Definition clip_result : ProcessingResult :=
  Eval vm_compute in
    match fst (process_video (sample_env false) VideoProcessor_init
                 "clip.mp4" "out.mp4" initial_world) with
    | inr r => r
    | inl _ => result_of "" "" 0 0 0 0 initial_locals 0
    end.

End Samples.


(* ===================================================================== *)
(** ** More of app/models/yolo_detector.py *)
(* ===================================================================== *)

Module DetectorInfo.
Import Py Cv Runtime Detector.
Local Open Scope py_scope.

(** [a / b] on floats: a zero divisor raises. *)
Definition py_fdiv (a b : Q) : exn + Q :=
  if Qeq_bool b 0 then inl ZeroDivisionError else inr (a / b)%Q.

(** The dictionary [get_model_info] returns. *)
Record ModelInfo : Type := {
  model_type : string;
  info_total_inferences : Z;
  average_inference_time : Q;
  info_confidence_threshold : Q;
  info_iou_threshold : Q;
  info_sports_classes : list (Z * string);
  fps_estimate : Q
}.

(** [SportsDetector.get_model_info]. *)
Definition get_model_info (self : SportsDetector) : exn + ModelInfo :=
  match (if 0 <? total_inferences self
         then py_fdiv (total_inference_time self) (inject_Z (total_inferences self))
         else inr 0%Q) with
  | inl e => inl e
  | inr avg_inference_time =>
      match (if Qgtb avg_inference_time 0 then py_fdiv 1 avg_inference_time
             else inr 0%Q) with
      | inl e => inl e
      | inr fps =>
          inr {| model_type := "YOLOv8";
                 info_total_inferences := total_inferences self;
                 average_inference_time := avg_inference_time;
                 info_confidence_threshold := confidence_threshold self;
                 info_iou_threshold := iou_threshold self;
                 info_sports_classes := sports_classes self;
                 fps_estimate := fps |}
      end
  end.

Section WithEnv.
Variable env : Env.

(** [detect_frame] called on each frame of a list in turn, as the callers do
    (one request after another, one frame of a stream after another). *)
Fixpoint detect_each (frames : list Frame) : M (list DetectResult) :=
  match frames with
  | [] => ret []
  | frame :: rest =>
      r <- detect_frame env frame ;;
      rs <- detect_each rest ;;
      ret (r :: rs)
  end.

End WithEnv.

End DetectorInfo.

(* ===================================================================== *)
(** ** More of app/utils/videoprocessor.py *)
(* ===================================================================== *)

Module Stream.
Import Py Cv Runtime Detector Pipeline.
Local Open Scope py_scope.

(** What [process_webcam_stream] consults besides the environment: the
    cameras, whether this build of OpenCV has its window functions (in a
    headless build [cv2.imshow], [cv2.waitKey] and [cv2.destroyAllWindows]
    raise [cv2.error]), and the value of the n-th [cv2.waitKey(1)] of the
    run. *)
Record Console : Type := {
  camera : Z -> option Video;
  gui : bool;
  waitKey : nat -> Z
}.

(** [try: body  finally: cleanup]: the cleanup runs either way; what the body
    raised is raised again after it, unless the cleanup raises itself. *)
Definition try_finally {A} (body : M A) (cleanup : M unit) : M A :=
  fun w => match body w with
           | (inr a, w') =>
               match cleanup w' with
               | (inr _, w'') => (inr a, w'')
               | (inl e, w'') => (inl e, w'')
               end
           | (inl e, w') =>
               match cleanup w' with
               | (inr _, w'') => (inl e, w'')
               | (inl e', w'') => (inl e', w'')
               end
           end.

(** [cv2.waitKey(1) & 0xFF == ord('q')]. *)
Definition quit_key (key : Z) : bool := Z.land key 255 =? 113.

Section WithEnv.
Variable env : Env.
Variable console : Console.

(** [cv2.imshow('Sports Detection', frame)]; [shown] collects the frames
    displayed (ghost). *)
Definition imshow (frame : Frame) (shown : list Frame) : exn + list Frame :=
  if gui console then inr (shown ++ [frame]) else inl CvError.

(** The [n]-th [cv2.waitKey(1)] of the run. *)
Definition waitKey_call (n : nat) : exn + Z :=
  if gui console then inr (waitKey console n) else inl CvError.

(** [cv2.destroyAllWindows()]. *)
Definition destroyAllWindows : M unit :=
  if gui console then ret tt else raise CvError.

(** The [while True] loop of [process_webcam_stream], by recursion on the
    frames [cap.read()] delivers; [n] counts the [cv2.waitKey] calls made. *)
Fixpoint webcam_loop (pending : list Frame) (n : nat) (shown : list Frame)
  : M (list Frame) :=
  match pending with
  | [] => ret shown
  | frame :: rest =>
      results <- detect_frame env frame ;;
      annotated_frame <- lift (draw_detections env frame (detections results)) ;;
      annotated_frame <- lift (_add_frame_overlay annotated_frame 0
                                 (Z.of_nat (List.length (detections results)))
                                 (inference_time results)) ;;
      shown <- lift (imshow annotated_frame shown) ;;
      key <- lift (waitKey_call n) ;;
      if quit_key key then ret shown
      else (* await asyncio.sleep(0.01) *) webcam_loop rest (S n) shown
  end.

(** [VideoProcessor.process_webcam_stream]; the value is the ghost list of the
    frames shown. *)
Definition process_webcam_stream (camera_id : Z) : M (list Frame) :=
  let c := {| cap_source := camera console camera_id; cap_released := false |} in
  modify (set_cap (Some c)) ;;;
  try_finally (webcam_loop (cap_frames c) 0 [])
              ( modify (fun w => set_cap (option_map release_capture (cap w)) w) ;;;
                destroyAllWindows ).

End WithEnv.

End Stream.

(* ===================================================================== *)
(** ** More of app/main.py *)
(* ===================================================================== *)

Module Jobs.
Import Py Cv Runtime Detector Pipeline Api DetectorInfo.
Local Open Scope py_scope.

(** What GET /download/{job_id} answers: a file, or a raised HTTPException. *)
Inductive Download : Type :=
| FileResponse (path : string) (media_type : string) (filename : string)
| Missing (status_code : Z) (detail : string).

(** [download_processed_video].  [processed_files[0]] is the first match of
    the glob, in whatever order the directory lists its entries. *)
Definition download_processed_video (job_id : Z) (w : World) : Download :=
  match processed_files job_id w with
  | [] => Missing 404 "Processed video not found"
  | p :: _ => FileResponse p "video/mp4" ("processed_" ++ str_Z job_id ++ ".mp4")%string
  end.

(** Running a scheduled task: the call [process_video_background(input_path,
    output_path, job_id)] with the global [video_processor]. *)
Definition run_task (env : Env) (video_processor : VideoProcessor) (t : Task) : M unit :=
  process_video_background env video_processor
    (task_input_path t) (task_output_path t) (task_job_id t).

(** What POST /detect/image answers: the handler's dictionary (status 200),
    or the status and detail of a raised [HTTPException]. *)
Inductive ImageResponse : Type :=
| ImageResult (filename : string) (inference_time : Q)
              (detections : list Detection) (detection_count : Z)
              (classes_detected : list string)
| ImageError (status_code : Z) (detail : Detail).

(** [detect_objects_image], the handler of POST /detect/image, from the
    image that [cv2.imdecode] made of the upload, which is a parameter:
    decoding is outside the source.  [list(set(...))] keeps one of each
    class name, in an order Python does not fix; here the order of their
    last occurrences. *)
Definition detect_objects_image (env : Env) (srv : Server) (file : UploadFile)
    (image : Frame) : M ImageResponse :=
  if negb (detector_loaded srv) then
    ret (ImageError 503 (Text "Model not loaded"))
  else
    try_except
      ( start_time <- time_time env ;;
        results <- detect_frame env image ;;
        t <- time_time env ;;
        let inference_time := (t - start_time)%Q in
        structlog INFO "Image detection completed" ;;;
        ret (ImageResult (filename file) inference_time (detections results)
               (Z.of_nat (List.length (detections results)))
               (nodup string_dec (map det_class (detections results)))) )
      (fun e =>
         structlog ERROR "Image detection failed" ;;;
         ret (ImageError 500 (StrOf e))).

End Jobs.

(* ===================================================================== *)
(** ** app/utils/logger.py: MetricsLogger *)
(* ===================================================================== *)

Module Metrics.
Import Py Cv Runtime DetectorInfo.

(** [self.metrics]. *)
Record Counters : Type := {
  total_requests : Z;
  successful_requests : Z;
  failed_requests : Z;
  total_processing_time : Q;
  total_detections : Z
}.

(** [MetricsLogger.__init__]. *)
Definition MetricsLogger_init : Counters :=
  {| total_requests := 0; successful_requests := 0; failed_requests := 0;
     total_processing_time := 0; total_detections := 0 |}.

(** A call on the logger, with the arguments that reach the counters. *)
Inductive Call : Type :=
| log_request_start
| log_request_success (processing_time : Q) (detection_count : Z)
| log_request_failure.

(** What a call does to the counters.  [log_request_success] also computes
    [1.0/processing_time if processing_time > 0 else 0] for the log line:
    a guarded division, which raises nothing. *)
Definition apply_call (m : Counters) (c : Call) : exn + Counters :=
  match c with
  | log_request_start =>
      inr {| total_requests := total_requests m + 1;
             successful_requests := successful_requests m;
             failed_requests := failed_requests m;
             total_processing_time := total_processing_time m;
             total_detections := total_detections m |}
  | log_request_success processing_time detection_count =>
      match (if Qgtb processing_time 0 then py_fdiv 1 processing_time else inr 0%Q) with
      | inl e => inl e
      | inr _ =>
          inr {| total_requests := total_requests m;
                 successful_requests := successful_requests m + 1;
                 failed_requests := failed_requests m;
                 total_processing_time := (total_processing_time m + processing_time)%Q;
                 total_detections := total_detections m + detection_count |}
      end
  | log_request_failure =>
      inr {| total_requests := total_requests m;
             successful_requests := successful_requests m;
             failed_requests := failed_requests m + 1;
             total_processing_time := total_processing_time m;
             total_detections := total_detections m |}
  end.

(** A sequence of calls, stopping at the first that raises. *)
Fixpoint apply_calls (m : Counters) (cs : list Call) : exn + Counters :=
  match cs with
  | [] => inr m
  | c :: rest =>
      match apply_call m c with
      | inl e => inl e
      | inr m' => apply_calls m' rest
      end
  end.

(** The fields [log_system_metrics] logs. *)
Record SystemMetrics : Type := {
  sm_total_requests : Z;
  sm_success_rate : Q;
  sm_avg_processing_time : Q;
  sm_total_detections : Z;
  sm_avg_detections_per_request : Q
}.

(** [MetricsLogger.log_system_metrics]: the values it computes. *)
Definition log_system_metrics (m : Counters) : exn + SystemMetrics :=
  match (if 0 <? successful_requests m
         then py_fdiv (total_processing_time m) (inject_Z (successful_requests m))
         else inr 0%Q) with
  | inl e => inl e
  | inr avg_processing_time =>
      match (if 0 <? total_requests m
             then py_truediv (successful_requests m) (total_requests m)
             else inr 0%Q) with
      | inl e => inl e
      | inr success_rate =>
          match (if 0 <? successful_requests m
                 then py_truediv (total_detections m) (successful_requests m)
                 else inr 0%Q) with
          | inl e => inl e
          | inr avg_detections =>
              inr {| sm_total_requests := total_requests m;
                     sm_success_rate := success_rate;
                     sm_avg_processing_time := avg_processing_time;
                     sm_total_detections := total_detections m;
                     sm_avg_detections_per_request := avg_detections |}
          end
      end
  end.

End Metrics.

(* ===================================================================== *)
(** ** Further notions and sample inputs *)
(* ===================================================================== *)

Module Props2.
Import Py Cv Runtime Detector Pipeline Api Props DetectorInfo Stream Jobs.

(** The test [detect_frame] makes on a box before keeping it:
    [cls_id in self.sports_classes or cls_id == 0]. *)
Definition keeps (self : SportsDetector) (b : RawBox) : bool :=
  is_sports_class self (cls b) || (cls b =? 0).

(** The elements of a list with their positions, counted from [i]. *)
Fixpoint indexed {A} (i : nat) (l : list A) : list (nat * A) :=
  match l with
  | [] => []
  | x :: rest => (i, x) :: indexed (S i) rest
  end.

(** What a detection says of the box it comes from, and the same of a box
    at a position. *)
Definition detection_summary (d : Detection) : nat * Z * Q * (Q * Q * Q * Q) :=
  (det_id d, det_class_id d, det_confidence d, det_bbox d).
Definition box_summary (ib : nat * RawBox) : nat * Z * Q * (Q * Q * Q * Q) :=
  (fst ib, cls (snd ib), conf (snd ib), xyxy (snd ib)).

(** The results of [detect_frame] that came from its [try] block. *)
Definition succeeded (r : DetectResult) : bool :=
  match error r with
  | None => true
  | Some _ => false
  end.

(** The number of detections the processed frames of a list carry, the
    frames being numbered from [n]. *)
Fixpoint detections_in (env : Env) (k : Z) (self : SportsDetector) (n : Z)
    (frames : list Frame) : Z :=
  match frames with
  | [] => 0
  | f :: rest =>
      (if selected k n then Z.of_nat (List.length (detections_for env self f)) else 0)
      + detections_in env k self (n + 1) rest
  end.

(** The world in which the frame loop of [process_video] starts, on a video
    that opens: clock read once, capture and writer created, the writer's
    file on disk when it could be created, the first log line written when
    INFO is enabled. *)
Definition fresh_writer (env : Env) (output_path : string) (v : Video) : VideoWriter :=
  {| wr_path := output_path; wr_fourcc := "mp4v";
     wr_fps := py_int (CAP_PROP_FPS v);
     wr_frameSize := (py_int (CAP_PROP_FRAME_WIDTH v),
                      py_int (CAP_PROP_FRAME_HEIGHT v));
     wr_opened := writable env output_path;
     wr_frames := []; wr_released := false |}.

Definition world_before_loop (env : Env) (output_path : string) (v : Video)
    (w : World) : World :=
  let w0 := set_cap (Some {| cap_source := Some v; cap_released := false |})
              (set_ticks (S (ticks w)) w) in
  let w1 := if info_enabled env
            then set_log (log w0 ++ [(INFO, "Processing video")]) w0 else w0 in
  set_out (Some (fresh_writer env output_path v))
    (if writable env output_path then set_files (output_path :: files w1) w1 else w1).

(** The path of a job's output file, as [detect_objects_video] forms it. *)
Definition job_output (job_id : Z) (name : string) : string :=
  (outputs_dir ++ str_Z job_id ++ "_processed_" ++ name)%string.
Definition job_input (job_id : Z) (name : string) : string :=
  (uploads_dir ++ str_Z job_id ++ "_" ++ name)%string.

(** No character of the string is an underscore. *)
Fixpoint underscore_free (s : string) : bool :=
  match s with
  | EmptyString => true
  | String c rest => negb (Ascii.eqb c "_") && underscore_free rest
  end.

(** A file of the outputs or uploads directory that job [job_id] did not
    write as its output: another job's output, or any job's upload. *)
Definition foreign_to (job_id : Z) (p : string) : Prop :=
  exists j name, (j <> job_id /\ p = job_output j name) \/ p = job_input j name.

(** The first reading of the keyboard at which the quit key is found, among
    [len] readings counted from the [n]-th. *)
Fixpoint first_quit (console : Console) (n : nat) (len : nat) : option nat :=
  match len with
  | O => None
  | S len' => if quit_key (waitKey console n) then Some n
              else first_quit console (S n) len'
  end.

(** The frames the camera delivers to [process_webcam_stream]. *)
Definition delivered (console : Console) (camera_id : Z) : list Frame :=
  match camera console camera_id with
  | Some v => frames v
  | None => []
  end.

(** What [process_webcam_stream] shows for a frame: the frame with its
    detections drawn and the information band, whose frame counter is 0. *)
Definition shown_for (env : Env) (self : SportsDetector) (frame g : Frame) : Prop :=
  exists annotated_frame frame_time,
    draw_detections env frame (detections_for env self frame) = inr annotated_frame /\
    _add_frame_overlay annotated_frame 0
      (Z.of_nat (List.length (detections_for env self frame))) frame_time = inr g.

(** A sequence of calls on a [MetricsLogger] in which every success or
    failure answers a request started before and not answered yet; [open]
    is the number of such requests at the start. *)
Fixpoint answers_requests (open : nat) (cs : list Metrics.Call) : bool :=
  match cs with
  | [] => true
  | Metrics.log_request_start :: rest => answers_requests (S open) rest
  | _ :: rest =>
      match open with
      | O => false
      | S open' => answers_requests open' rest
      end
  end.

Definition count_starts (cs : list Metrics.Call) : Z :=
  Z.of_nat (List.length (filter (fun c => match c with
                                         | Metrics.log_request_start => true
                                         | _ => false end) cs)).
Definition count_successes (cs : list Metrics.Call) : Z :=
  Z.of_nat (List.length (filter (fun c => match c with
                                         | Metrics.log_request_success _ _ => true
                                         | _ => false end) cs)).
Definition count_failures (cs : list Metrics.Call) : Z :=
  Z.of_nat (List.length (filter (fun c => match c with
                                         | Metrics.log_request_failure => true
                                         | _ => false end) cs)).
Definition sum_detections (cs : list Metrics.Call) : Z :=
  fold_right (fun c acc => match c with
                           | Metrics.log_request_success _ n => n + acc
                           | _ => acc end) 0 cs.

End Props2.

Module Samples2.
Import Py Cv Runtime Detector Pipeline Api Props DetectorInfo Stream Jobs Props2.

(** The sample environment with a model that knows only the name of class 0. *)
Definition nameless_env : Env :=
  {| now := now (Samples.sample_env false);
     yolo := yolo (Samples.sample_env false);
     yolo_names := fun c => if c =? 0 then Some "person" else None;
     getTextSize := getTextSize (Samples.sample_env false);
     video_at := video_at (Samples.sample_env false);
     writable := writable (Samples.sample_env false);
     info_enabled := false;
     str_lower := ascii_lower |}.

(** A video that opens and decodes no frame. *)
Definition empty_video : Video :=
  {| CAP_PROP_FPS := 30; CAP_PROP_FRAME_WIDTH := 640; CAP_PROP_FRAME_HEIGHT := 480;
     CAP_PROP_FRAME_COUNT := 0; frames := [] |}.

(** An environment whose only video is the empty one, read with stride 0. *)
Definition empty_env : Env :=
  {| now := now (Samples.sample_env false);
     yolo := yolo (Samples.sample_env false);
     yolo_names := Samples.coco_names;
     getTextSize := getTextSize (Samples.sample_env false);
     video_at := fun p => if String.eqb p "empty.mp4" then Some empty_video else None;
     writable := fun _ => true;
     info_enabled := false;
     str_lower := ascii_lower |}.
Definition stride_zero : VideoProcessor := {| frame_skip := 0 |}.

(** An environment whose clock advances a quarter of a second between two
    readings, in which any file can be created. *)
Definition fast_env : Env :=
  {| now := fun n => (7 + inject_Z (Z.of_nat n) / 4)%Q;
     yolo := yolo (Samples.sample_env false);
     yolo_names := Samples.coco_names;
     getTextSize := getTextSize (Samples.sample_env false);
     video_at := fun _ => None;
     writable := fun _ => true;
     info_enabled := false;
     str_lower := ascii_lower |}.
Definition loaded_server : Server :=
  {| detector_loaded := true; background_tasks := [] |}.
Definition clip_upload : UploadFile := {| filename := "clip.mp4"; contents := [] |}.

(** The sample environment with the upload of job 7 as the only video, and
    INFO logging as given. *)
Definition upload_env (info : bool) : Env :=
  {| now := fun n => inject_Z (7 + Z.of_nat n) ;
     yolo := yolo (Samples.sample_env false);
     yolo_names := Samples.coco_names;
     getTextSize := getTextSize (Samples.sample_env false);
     video_at := fun p => if String.eqb p "app/static/uploads/7_clip.mp4"
                          then Some Samples.clip else None;
     writable := fun _ => true;
     info_enabled := info;
     str_lower := ascii_lower |}.

(** A camera that delivers the three frames of the clip, and a keyboard on
    which q is pressed (with a modifier bit set above the low byte) at the
    second reading. *)
Definition sample_console : Console :=
  {| camera := fun id => if id =? 0 then Some Samples.clip else None;
     gui := true;
     waitKey := fun n => if (n =? 1)%nat then 1048689 else -1 |}.

End Samples2.

(* ===================================================================== *)
(** ** Properties *)
(* ===================================================================== *)

Import Py Cv Runtime Detector Pipeline Api Props.

(** Unfolds the operations of the monad. *)
Ltac run_monad :=
  unfold bind, ret, raise, lift, modify, gets, try_except in *.

(** *** Python runtime *)

Lemma Qgtb_true (x y : Q) : Qgtb x y = true <-> (y < x)%Q.
Proof.
  unfold Qgtb. rewrite negb_true_iff.
  split; intro H.
  - apply Qnot_le_lt. intro Hle. apply Qle_bool_iff in Hle. congruence.
  - destruct (Qle_bool x y) eqn:E; [|reflexivity].
    apply Qle_bool_iff in E. exfalso. exact (Qlt_not_le _ _ H E).
Qed.

Lemma Qgtb_false (x y : Q) : Qgtb x y = false <-> (x <= y)%Q.
Proof.
  unfold Qgtb. rewrite negb_false_iff. apply Qle_bool_iff.
Qed.

Lemma py_int_inject_Z (z : Z) : py_int (inject_Z z) = z.
Proof. unfold py_int, inject_Z. simpl. apply Z.quot_1_r. Qed.

Lemma py_mod_nonzero (a b : Z) : b <> 0 -> py_mod a b = inr (a mod b).
Proof.
  intro H. unfold py_mod. destruct (b =? 0) eqn:E; [|reflexivity].
  apply Z.eqb_eq in E. contradiction.
Qed.

Lemma py_truediv_nonzero (a b : Z) :
  b <> 0 -> py_truediv a b = inr (inject_Z a / inject_Z b)%Q.
Proof.
  intro H. unfold py_truediv. destruct (b =? 0) eqn:E; [|reflexivity].
  apply Z.eqb_eq in E. contradiction.
Qed.

(** *** Strings *)

Lemma string_app_assoc (a b c : string) :
  ((a ++ b) ++ c = a ++ (b ++ c))%string.
Proof.
  induction a as [|ch a IH]; simpl; [reflexivity|]. now rewrite IH.
Qed.

Lemma string_app_nil_r (a : string) : (a ++ "" = a)%string.
Proof.
  induction a as [|ch a IH]; simpl; [reflexivity|]. now rewrite IH.
Qed.

Lemma string_length_app (a b : string) :
  String.length (a ++ b) = (String.length a + String.length b)%nat.
Proof.
  induction a as [|ch a IH]; simpl; [reflexivity|]. now rewrite IH.
Qed.

(** *** The detector *)

Lemma classify_person_role_spec (d : Detection) :
  ((5000 < det_area d)%Q -> _classify_person_role d = "player") /\
  ((2000 < det_area d)%Q /\ (det_area d <= 5000)%Q ->
     _classify_person_role d = "referee_or_coach") /\
  ((det_area d <= 2000)%Q -> _classify_person_role d = "spectator_or_other").
Proof.
  unfold _classify_person_role.
  repeat split.
  - intro H. apply Qgtb_true in H. now rewrite H.
  - intros [H1 H2]. apply Qgtb_true in H1. apply Qgtb_false in H2.
    now rewrite H2, H1.
  - intro H.
    assert (H5 : Qgtb (det_area d) 5000 = false).
    { apply Qgtb_false. eapply Qle_trans; [exact H|]. discriminate. }
    apply Qgtb_false in H. now rewrite H5, H.
Qed.

Lemma detection_of_box_role (env : Env) (self : SportsDetector) (i : nat)
    (b : RawBox) (d : Detection) :
  detection_of_box env self i b = inr (Some d) -> role_by_area d.
Proof.
  unfold detection_of_box.
  destruct (is_sports_class self (cls b) || (cls b =? 0)); [|discriminate].
  destruct (xyxy b) as [[[x1 y1] x2] y2].
  destruct (yolo_names env (cls b)) as [name|]; [|discriminate].
  intro H. injection H as <-. unfold role_by_area. simpl.
  split.
  - intro Hc. rewrite Hc. simpl.
    pose proof (classify_person_role_spec
      {| det_id := i; det_class := name; det_class_id := 0;
         det_confidence := conf b; det_bbox := (x1, y1, x2, y2);
         det_center := ((x1 + x2) / 2, (y1 + y2) / 2)%Q;
         det_area := ((x2 - x1) * (y2 - y1))%Q; det_sports_role := None |}) as S.
    simpl in S. destruct S as (S1 & S2 & S3).
    repeat split; intro H; f_equal; auto.
  - intro Hc. rewrite Hc. reflexivity.
Qed.

Lemma extract_boxes_roles (env : Env) (self : SportsDetector) :
  forall boxes i acc dets,
    Forall role_by_area acc ->
    extract_boxes env self i boxes acc = inr dets ->
    Forall role_by_area dets.
Proof.
  induction boxes as [|b rest IH]; intros i acc dets Hacc H; simpl in H.
  - injection H as <-. exact Hacc.
  - destruct (detection_of_box env self i b) as [e|[d|]] eqn:E; [discriminate| |].
    + apply (IH _ _ _ (proj2 (Forall_app _ _ _)
                         (conj Hacc (Forall_cons _ (detection_of_box_role _ _ _ _ _ E)
                                                   (Forall_nil _)))) H).
    + exact (IH _ _ _ Hacc H).
Qed.

Lemma extract_detections_roles (env : Env) (self : SportsDetector) results dets :
  extract_detections env self results = inr dets -> Forall role_by_area dets.
Proof.
  unfold extract_detections.
  destruct results as [|[boxes|] rest]; intro H.
  - injection H as <-. constructor.
  - exact (extract_boxes_roles env self _ _ _ _ (Forall_nil _) H).
  - injection H as <-. constructor.
Qed.

(** The [try] block of [detect_frame], step by step. *)
Lemma detect_frame_try_run (env : Env) (frame : Frame) (start_time : Q) (w : World) :
  detect_frame_try env frame start_time w =
  match yolo env frame (confidence_threshold (detector w)) (iou_threshold (detector w)) with
  | ModelRaises msg => (inl (ModelError msg), w)
  | ModelReturns results =>
      match extract_detections env (detector w) results with
      | inl e => (inl e, w)
      | inr dets =>
          let inference_time := (now env (ticks w) - start_time)%Q in
          (inr {| detections := dets;
                  inference_time := inference_time;
                  frame_shape := Some (height frame, width frame, 3);
                  model_confidence := Some (confidence_threshold (detector w));
                  error := None |},
           set_detector
             {| sports_classes := sports_classes (detector w);
                confidence_threshold := confidence_threshold (detector w);
                iou_threshold := iou_threshold (detector w);
                total_inferences := total_inferences (detector w) + 1;
                total_inference_time :=
                  (total_inference_time (detector w) + inference_time)%Q |}
             (set_ticks (S (ticks w)) w))
      end
  end.
Proof.
  unfold detect_frame_try, run_model, time_time. run_monad.
  destruct (yolo env frame _ _) as [msg|results]; [reflexivity|].
  destruct (extract_detections env (detector w) results); reflexivity.
Qed.

(** What [detect_frame] does to the world and what it returns. *)
Lemma detect_frame_run (env : Env) (frame : Frame) (w : World) :
  exists r w',
    detect_frame env frame w = (inr r, w') /\
    detections r = detections_for env (detector w) frame /\
    ticks w' = S (S (ticks w)) /\
    same_config (detector w') (detector w) /\
    cap w' = cap w /\ out w' = out w /\ files w' = files w /\
    detect_calls w' = detect_calls w.
Proof.
  unfold detect_frame, detections_for.
  unfold bind at 1. unfold time_time at 1. unfold try_except.
  rewrite detect_frame_try_run. simpl.
  destruct (yolo env frame _ _) as [msg|results].
  - unfold detect_frame_except, logger_error, time_time. run_monad. simpl.
    eexists _, _. repeat split; reflexivity.
  - destruct (extract_detections env (detector w) results) as [e|dets].
    + unfold detect_frame_except, logger_error, time_time. run_monad. simpl.
      eexists _, _. repeat split; reflexivity.
    + simpl. eexists _, _. repeat split; reflexivity.
Qed.

(** C7. Every detection that [detect_frame] returns carries a role computed
    from its area alone when it is a person (class 0): "player" above 5000,
    "referee_or_coach" above 2000 and up to 5000, "spectator_or_other"
    otherwise; a detection of the ball class (32) carries "ball". *)
Theorem detect_frame_roles_by_area (env : Env) (frame : Frame) (w : World)
    (r : DetectResult) (d : Detection) :
  outcome (detect_frame env frame w) = inr r ->
  In d (detections r) ->
  role_by_area d.
Proof.
  intros Hr Hin.
  destruct (detect_frame_run env frame w) as (r' & w' & Hrun & Hdets & _).
  unfold outcome in Hr. rewrite Hrun in Hr. simpl in Hr. injection Hr as ->.
  rewrite Hdets in Hin. unfold detections_for in Hin.
  destruct (yolo env frame _ _) as [msg|results]; [contradiction|].
  destruct (extract_detections env (detector w) results) as [e|dets] eqn:E;
    [contradiction|].
  apply extract_detections_roles in E.
  rewrite Forall_forall in E. exact (E d Hin).
Qed.

Lemma detect_frame_roles_by_area_witness :
  role_by_area
    {| det_id := 0; det_class := "person"; det_class_id := 0;
       det_confidence := 0.875; det_bbox := (10, 0, 110, 100)%Q;
       det_center := ((10 + 110) / 2, (0 + 100) / 2)%Q;
       det_area := ((110 - 10) * (100 - 0))%Q;
       det_sports_role := Some "player" |}.
Proof.
  eapply (detect_frame_roles_by_area (Samples.sample_env false)
            (Samples.frame_of 480 0) initial_world).
  - reflexivity.
  - simpl. left. reflexivity.
Defined.

(** C10. [detect_frame] returns a dictionary on every frame and in every
    state, and raises nothing: when its [try] block raises [e], the
    dictionary has no detections and an 'error' entry for [e]; when the block
    completes, the dictionary is the block's, with 'detections',
    'inference_time', 'frame_shape' and 'model_confidence' and no 'error'. *)
Theorem detect_frame_total (env : Env) (frame : Frame) (w : World) :
  exists r w',
    detect_frame env frame w = (inr r, w') /\
    match outcome (detect_frame_try env frame (now env (ticks w))
                     (set_ticks (S (ticks w)) w)) with
    | inl e =>
        detections r = [] /\ error r = Some e /\
        frame_shape r = None /\ model_confidence r = None
    | inr r0 =>
        r = r0 /\ error r = None /\
        frame_shape r = Some (height frame, width frame, 3) /\
        model_confidence r = Some (confidence_threshold (detector w))
    end.
Proof.
  unfold detect_frame, outcome.
  unfold bind at 1. unfold time_time at 1. unfold try_except.
  rewrite detect_frame_try_run. simpl.
  destruct (yolo env frame _ _) as [msg|results].
  - unfold detect_frame_except, logger_error, time_time. run_monad. simpl.
    eexists _, _. repeat split; reflexivity.
  - destruct (extract_detections env (detector w) results) as [e|dets].
    + unfold detect_frame_except, logger_error, time_time. run_monad. simpl.
      eexists _, _. repeat split; reflexivity.
    + simpl. eexists _, _. repeat split; reflexivity.
Qed.

(** *** The annotator *)

Lemma draw_nothing (f : Frame) : draw f [] = f.
Proof.
  destruct f as [h wd r d]. unfold draw. cbn. now rewrite app_nil_r.
Qed.

Lemma draw_draw (f : Frame) (a b : list DrawOp) :
  draw (draw f a) b = draw f (a ++ b).
Proof.
  unfold draw. cbn. now rewrite app_assoc.
Qed.

(** One iteration of [draw_detections], by the coordinates it passes: the
    three calls are made when every coordinate fits a C int, and cv2 raises
    otherwise. *)
Lemma draw_one_spec (env : Env) (frame : Frame) (det : Detection) :
  draw_one env frame det =
  if drawable env det then inr (draw frame (calls_for env det)) else inl CvError.
Proof.
  unfold draw_one, drawable, calls_for, box_call, background_call, text_call,
    background_top, background_bottom, label_baseline, text_width, text_height,
    box_left, box_top, rectangle, putText.
  destruct (det_bbox det) as [[[bx1 by1] bx2] by2].
  destruct (is_point (py_int bx1, py_int by1) && is_point (py_int bx2, py_int by2));
    cbn [andb]; [|reflexivity].
  destruct (is_point _ && is_point _); cbn [andb]; [|reflexivity].
  destruct (is_point _); [|reflexivity].
  now rewrite !draw_draw.
Qed.

Lemma draw_detections_spec (env : Env) (dets : list Detection) :
  forall frame,
    draw_detections env frame dets =
    if forallb (drawable env) dets
    then inr (draw frame (flat_map (calls_for env) dets)) else inl CvError.
Proof.
  induction dets as [|det rest IH]; intro frame;
    cbn [draw_detections forallb flat_map].
  - now rewrite draw_nothing.
  - rewrite draw_one_spec. destruct (drawable env det); cbn [andb]; [|reflexivity].
    rewrite IH. destruct (forallb (drawable env) rest); [|reflexivity].
    now rewrite draw_draw.
Qed.

(** What [draw_detections] raises is cv2's error, and what it returns has
    the shape of the frame. *)
Lemma draw_detections_cases (env : Env) (frame : Frame) (dets : list Detection) :
  draw_detections env frame dets = inl CvError \/
  exists g, draw_detections env frame dets = inr g /\
            height g = height frame /\ width g = width frame.
Proof.
  rewrite draw_detections_spec. destruct (forallb (drawable env) dets).
  - right. eexists. repeat split.
  - now left.
Qed.

(** C8. For every detection that [draw_detections] draws, the calls made are
    the box, the filled background of the label and the text of the label,
    [class: confidence] with two decimals followed by the role in brackets
    when there is one.  The baseline of the text is at
    [max(y1 - 10, text height)]: the label is placed above the box, its
    background ending above the top of the box, when there is room for it,
    and is moved down otherwise, so that the rows of the text start at row 0
    or below it and the background is requested from no higher than 5 rows
    above the frame.  cv2 clips what it draws to the image: no pixel that
    the background or the text can change lies above the frame top. *)
Theorem label_position (env : Env) (frame g : Frame) (det : Detection) :
  draw_one env frame det = inr g ->
  drawn g = drawn frame ++
            [box_call det; background_call env det; text_call env det] /\
  label_of det =
    (det_class det ++ ": " ++ format_f 2 (det_confidence det) ++
     match det_sports_role det with
     | Some role => " (" ++ role ++ ")"
     | None => ""
     end)%string /\
  label_baseline env det = Z.max (box_top det - 10) (text_height env det) /\
  0 <= text_top env det /\
  -5 <= background_top env det /\
  (text_height env det <= box_top det - 10 ->
     background_bottom env det < box_top det) /\
  (forall p,
     may_paint g (background_call env det) p = true \/
     may_paint g (text_call env det) p = true ->
     0 <= snd p < height frame).
Proof.
  rewrite draw_one_spec. destruct (drawable env det); [|discriminate].
  intro H. injection H as <-.
  unfold text_top, background_top, background_bottom, label_baseline, label_y_of,
    text_height.
  split; [reflexivity|]. split.
  { unfold label_of. destruct (det_sports_role det) as [role|].
    - now rewrite !string_app_assoc.
    - now rewrite string_app_nil_r. }
  split; [reflexivity|]. split; [lia|]. split; [lia|]. split; [lia|].
  intros p Hp.
  assert (Hin : in_image (draw frame (calls_for env det)) p = true).
  { unfold may_paint in Hp.
    destruct Hp as [Hp|Hp]; apply andb_true_iff in Hp; tauto. }
  unfold in_image in Hin. cbn [draw height width] in Hin.
  apply andb_true_iff in Hin. destruct Hin as (Hin & H4).
  apply andb_true_iff in Hin. destruct Hin as (Hin & H3).
  apply Z.leb_le in H3. apply Z.ltb_lt in H4. lia.
Qed.

(** A person whose box touches the frame top (y1 = 0): the text is moved
    down to the rows 0 to 11, and the background is requested from row -5,
    of which the rows from 0 are in the image. *)
Lemma label_position_witness :
  drawn (draw (Samples.frame_of 480 0)
           (calls_for (Samples.sample_env false) Samples.person_detection)) =
    [Rectangle (10, 0) (110, 100) (0, 255, 0) 2;
     Rectangle (10, -5) (199, 16) (0, 255, 0) (-1);
     PutText "person: 0.88 (player)" (10, 11) 0.5 (255, 255, 255) 2] /\
  0 <= text_top (Samples.sample_env false) Samples.person_detection /\
  may_paint (Samples.frame_of 480 0)
    (background_call (Samples.sample_env false) Samples.person_detection) (10, 0)
    = true /\
  may_paint (Samples.frame_of 480 0)
    (background_call (Samples.sample_env false) Samples.person_detection) (10, -1)
    = false.
Proof.
  destruct (label_position (Samples.sample_env false) (Samples.frame_of 480 0)
              (draw (Samples.frame_of 480 0)
                 (calls_for (Samples.sample_env false) Samples.person_detection))
              Samples.person_detection)
    as (Hd & _ & _ & Ht & _).
  - vm_compute. reflexivity.
  - split; [rewrite Hd; vm_compute; reflexivity|].
    split; [exact Ht|]. split; vm_compute; reflexivity.
Defined.

(** *** The frame loop *)

Lemma same_config_refl (d : SportsDetector) : same_config d d.
Proof. repeat split. Qed.

Lemma same_config_trans (a b c : SportsDetector) :
  same_config a b -> same_config b c -> same_config a c.
Proof.
  intros (H1 & H2 & H3) (G1 & G2 & G3).
  repeat split; congruence.
Qed.

Lemma detection_of_box_config (env : Env) (d d' : SportsDetector) i b :
  same_config d d' -> detection_of_box env d i b = detection_of_box env d' i b.
Proof.
  intros (H & _). unfold detection_of_box, is_sports_class. now rewrite H.
Qed.

Lemma extract_boxes_config (env : Env) (d d' : SportsDetector) :
  same_config d d' ->
  forall boxes i acc, extract_boxes env d i boxes acc = extract_boxes env d' i boxes acc.
Proof.
  intros H. induction boxes as [|b rest IH]; intros i acc; simpl; [reflexivity|].
  rewrite (detection_of_box_config env d d' i b H).
  destruct (detection_of_box env d' i b) as [e|[x|]]; auto.
Qed.

Lemma detections_for_config (env : Env) (d d' : SportsDetector) (f : Frame) :
  same_config d d' -> detections_for env d f = detections_for env d' f.
Proof.
  intros H. unfold detections_for, extract_detections.
  destruct H as (H1 & H2 & H3). rewrite H2, H3.
  destruct (yolo env f _ _) as [msg|[|[boxes|] rest]]; try reflexivity.
  now rewrite (extract_boxes_config env d d' (conj H1 (conj H2 H3))).
Qed.

Lemma Written_config (env : Env) (k : Z) (d d' : SportsDetector) :
  same_config d d' ->
  forall n fs gs, Written env k d n fs gs -> Written env k d' n fs gs.
Proof.
  intros H n fs gs W. induction W as [n|n f g fs gs Hw _ IH]; constructor; auto.
  unfold written_for in *. now rewrite <- (detections_for_config env d d' f H).
Qed.

Lemma write_all_frames (l : list Frame) :
  forall o,
    wr_opened o = true -> wr_released o = false ->
    wr_frames (fold_left write l o) = wr_frames o ++ l.
Proof.
  induction l as [|f l IH]; intros o Ho Hr; simpl.
  - now rewrite app_nil_r.
  - assert (E : write o f =
      {| wr_path := wr_path o; wr_fourcc := wr_fourcc o; wr_fps := wr_fps o;
         wr_frameSize := wr_frameSize o; wr_opened := wr_opened o;
         wr_frames := wr_frames o ++ [f]; wr_released := wr_released o |}).
    { unfold write. now rewrite Ho, Hr. }
    rewrite E, IH by (simpl; assumption). simpl.
    now rewrite <- app_assoc.
Qed.

Lemma add_frame_overlay_fits (f : Frame) (n c : Z) (t : Q) :
  band_fits f ->
  exists g, _add_frame_overlay f n c t = inr g /\ height g = height f.
Proof.
  unfold band_fits, _add_frame_overlay. intro H.
  rewrite Z.min_r by exact H. rewrite Z.eqb_refl.
  eexists. split; reflexivity.
Qed.

Lemma add_frame_overlay_low (f : Frame) (n c : Z) (t : Q) :
  height f < overlay_height -> _add_frame_overlay f n c t = inl CvError.
Proof.
  unfold _add_frame_overlay. intro H.
  rewrite Z.min_l by lia.
  destruct (height f =? overlay_height) eqn:E; [|reflexivity].
  apply Z.eqb_eq in E. lia.
Qed.

Lemma bind_inr {A B} (c : M A) (k : A -> M B) (w : World) (a : A) (w1 : World) :
  c w = (inr a, w1) -> bind c k w = k a w1.
Proof. intro H. unfold bind. now rewrite H. Qed.

Lemma bind_inl {A B} (c : M A) (k : A -> M B) (w : World) (e : exn) (w1 : World) :
  c w = (inl e, w1) -> bind c k w = (inl e, w1).
Proof. intro H. unfold bind. now rewrite H. Qed.

Section FrameLoop.
Variable env : Env.
Variable self : VideoProcessor.
Variable total_frames : Z.
Hypothesis stride : frame_skip self <> 0.

Lemma frame_loop_skip (frame : Frame) (rest : list Frame) (st : Locals) (w : World) :
  selected (frame_skip self) (frame_num st) = false ->
  frame_loop env self total_frames (frame :: rest) st w =
  frame_loop env self total_frames rest
    {| processed_frames := processed_frames st;
       total_detections := total_detections st;
       frame_times := frame_times st;
       frame_num := frame_num st + 1 |}
    (set_out (option_map (fun o => write o frame) (out w)) w).
Proof.
  intro H. unfold selected in H. cbn [frame_loop].
  rewrite (bind_inr _ _ w (frame_num st mod frame_skip self) w)
    by (unfold lift; now rewrite py_mod_nonzero).
  cbn beta. rewrite H. cbn [negb].
  reflexivity.
Qed.

End FrameLoop.

(** *** process_video *)

Lemma bind_inv {A B} (c : M A) (k : A -> M B) (w w' : World) (b : B) :
  bind c k w = (inr b, w') ->
  exists a w1, c w = (inr a, w1) /\ k a w1 = (inr b, w').
Proof.
  unfold bind. destruct (c w) as [[e|a] w1]; intro H; [discriminate|].
  now exists a, w1.
Qed.

(** [finish] releases both handles, reads the clock, and returns the result
    dictionary, unless the closing log call raises. *)
Lemma finish_run (env : Env) (input_path output_path : string) (start_time : Q)
    (fps width height total_frames : Z) (st : Locals) (w : World) :
  finish env input_path output_path start_time fps width height total_frames st w =
    (if info_enabled env then inl TypeError
     else inr (result_of input_path output_path fps width height total_frames st
                 (now env (ticks w) - start_time)%Q),
     set_ticks (S (ticks w))
       (set_out (option_map release_writer (out w))
          (set_cap (option_map release_capture (cap w)) w))).
Proof.
  unfold finish, result_of, logger_info_kwargs, logged_keys, time_time.
  run_monad. cbn.
  assert (Ha : forall a b, (0 <? b) = true ->
            py_truediv a b = inr (inject_Z a / inject_Z b)%Q).
  { intros a b H. apply py_truediv_nonzero. apply Z.ltb_lt in H. lia. }
  destruct (0 <? processed_frames st) eqn:Ep;
    destruct (0 <? fps) eqn:Ef;
    rewrite ?(Ha _ _ Ep), ?(Ha _ _ Ef); cbn;
    destruct (info_enabled env); reflexivity.
Qed.

(** A result that [finish] returns has its average computed as stated. *)
Lemma finish_average (env : Env) (input_path output_path : string) (start_time : Q)
    (fps width height total_frames : Z) (st : Locals) (w w' : World)
    (r : ProcessingResult) :
  finish env input_path output_path start_time fps width height total_frames st w
    = (inr r, w') ->
  res_avg_detections_per_frame r =
    (if 0 <? res_processed_frames r
     then inject_Z (res_total_detections r) / inject_Z (res_processed_frames r)
     else 0)%Q.
Proof.
  intro H. rewrite finish_run in H.
  destruct (info_enabled env); [discriminate|].
  injection H as <- _. reflexivity.
Qed.

(** What [process_video] returns, it returns from [finish]. *)
Lemma process_video_returns (env : Env) (self : VideoProcessor)
    (input_path output_path : string) (w w' : World) (r : ProcessingResult) :
  process_video env self input_path output_path w = (inr r, w') ->
  exists fps width height total_frames st w1,
    finish env input_path output_path (now env (ticks w)) fps width height
      total_frames st w1 = (inr r, w').
Proof.
  unfold process_video. intro H.
  apply bind_inv in H. destruct H as (start_time & w0 & Ht & H).
  unfold time_time in Ht. injection Ht as <- <-.
  unfold try_except in H.
  destruct (process_video_try env self input_path output_path (now env (ticks w))
              (set_ticks (S (ticks w)) w)) as [[e|r0] w2] eqn:Etry.
  - unfold bind, logger_error, modify, raise in H. discriminate.
  - injection H as -> ->.
    unfold process_video_try in Etry.
    apply bind_inv in Etry. destruct Etry as ([] & w3 & _ & Etry).
    destruct (negb (isOpened _)); [discriminate|].
    apply bind_inv in Etry. destruct Etry as ([] & w4 & _ & Etry).
    apply bind_inv in Etry. destruct Etry as ([] & w5 & _ & Etry).
    apply bind_inv in Etry. destruct Etry as (st & w6 & _ & Etry).
    eexists _, _, _, _, st, w6. exact Etry.
Qed.

(** C6. The 'avg_detections_per_frame' entry of a result returned by
    [process_video] is 'total_detections' divided by 'processed_frames' when
    'processed_frames' is positive, and 0 when it is 0; the division is never
    made with a zero divisor. *)
Theorem average_detections_per_frame (env : Env) (self : VideoProcessor)
    (input_path output_path : string) (w : World) (r : ProcessingResult) :
  outcome (process_video env self input_path output_path w) = inr r ->
  (0 < res_processed_frames r ->
     res_avg_detections_per_frame r =
       (inject_Z (res_total_detections r) / inject_Z (res_processed_frames r))%Q) /\
  (res_processed_frames r = 0 -> res_avg_detections_per_frame r = 0%Q).
Proof.
  unfold outcome. intro H.
  destruct (process_video env self input_path output_path w) as [x w'] eqn:E.
  simpl in H. subst x.
  destruct (process_video_returns env self input_path output_path w w' r E)
    as (fps & width & height & total & st & w1 & Hfin).
  rewrite (finish_average env _ _ _ _ _ _ _ _ _ _ _ Hfin).
  split; intro Hp.
  - apply Z.ltb_lt in Hp. now rewrite Hp.
  - now rewrite Hp.
Qed.

Lemma average_detections_per_frame_witness :
  outcome (process_video (Samples.sample_env false) VideoProcessor_init
             "clip.mp4" "out.mp4" initial_world) = inr Samples.clip_result /\
  res_processed_frames Samples.clip_result = 3 /\
  res_total_detections Samples.clip_result = 4 /\
  res_avg_detections_per_frame Samples.clip_result = (4 # 3)%Q.
Proof.
  assert (H : outcome (process_video (Samples.sample_env false) VideoProcessor_init
                         "clip.mp4" "out.mp4" initial_world)
              = inr Samples.clip_result) by (vm_compute; reflexivity).
  split; [exact H|].
  split; [reflexivity|]. split; [reflexivity|].
  exact (proj1 (average_detections_per_frame (Samples.sample_env false)
                  VideoProcessor_init "clip.mp4" "out.mp4" initial_world
                  Samples.clip_result H) eq_refl).
Defined.

(** *** What the pipeline writes and which frames it hands to the detector *)

(** C1 fails on the code.  A video whose frames are lower than the 80 rows
    of the information band stops [process_video] at its first frame, with
    cv2's error from [_add_frame_overlay]: the one frame of a 64x64 video is
    not written.  A video whose container reports a frame count of 0 stops
    it at the 100th processed frame, where the progress line divides by that
    count: of 101 frames 100 are written.  A video at 29.97 fps is written
    at 29 fps.  With a stride of 0 the first [frame_num % 0] raises: of the
    three frames of the clip none is written. *)
Theorem low_frames_are_not_written :
  List.length (frames Samples.thumbnail) = 1%nat /\
  outcome (process_video (Samples.sample_env false) VideoProcessor_init
             "thumbnail.mp4" "out.mp4" initial_world) = inl CvError /\
  written_frames (final (process_video (Samples.sample_env false) VideoProcessor_init
                           "thumbnail.mp4" "out.mp4" initial_world)) = [] /\
  List.length (frames Samples.stream) = 101%nat /\
  outcome (process_video (Samples.sample_env false) VideoProcessor_init
             "stream.mp4" "out.mp4" initial_world) = inl ZeroDivisionError /\
  List.length
    (written_frames (final (process_video (Samples.sample_env false)
                              VideoProcessor_init "stream.mp4" "out.mp4"
                              initial_world))) = 100%nat /\
  CAP_PROP_FPS Samples.ntsc = 29.97%Q /\
  option_map wr_fps
    (out (final (process_video (Samples.sample_env false) VideoProcessor_init
                   "ntsc.mp4" "out.mp4" initial_world))) = Some 29 /\
  List.length (frames Samples.clip) = 3%nat /\
  outcome (process_video (Samples.sample_env false) {| frame_skip := 0 |}
             "clip.mp4" "out.mp4" initial_world) = inl ZeroDivisionError /\
  written_frames (final (process_video (Samples.sample_env false) {| frame_skip := 0 |}
                           "clip.mp4" "out.mp4" initial_world)) = [].
Proof.
  repeat split; vm_compute; reflexivity.
Qed.

(** C2 fails on the code.  On a video of two frames lower than the 80 rows
    of the information band, with the default stride 1, the detector is
    called on frame 0, [_add_frame_overlay] raises, and frame 1, whose
    number is a multiple of the stride, is never handed to the detector;
    neither frame is written.  On a video of 101 frames whose container
    reports a frame count of 0 the run stops at the 100th processed frame
    and the detector is never called on frame 100.  With a stride of 0,
    frame 0 is neither handed to the detector nor written. *)
Theorem selected_frames_are_not_detected :
  List.length (frames Samples.strip) = 2%nat /\
  py_mod 1 (frame_skip VideoProcessor_init) = inr 0 /\
  outcome (process_video (Samples.sample_env false) VideoProcessor_init
             "strip.mp4" "out.mp4" initial_world) = inl CvError /\
  detect_calls (final (process_video (Samples.sample_env false) VideoProcessor_init
                         "strip.mp4" "out.mp4" initial_world)) = [0] /\
  written_frames (final (process_video (Samples.sample_env false) VideoProcessor_init
                           "strip.mp4" "out.mp4" initial_world)) = [] /\
  py_mod 100 (frame_skip VideoProcessor_init) = inr 0 /\
  existsb (Z.eqb 100)
    (detect_calls (final (process_video (Samples.sample_env false)
                            VideoProcessor_init "stream.mp4" "out.mp4"
                            initial_world))) = false /\
  detect_calls (final (process_video (Samples.sample_env false) {| frame_skip := 0 |}
                         "clip.mp4" "out.mp4" initial_world)) = [] /\
  written_frames (final (process_video (Samples.sample_env false) {| frame_skip := 0 |}
                           "clip.mp4" "out.mp4" initial_world)) = [].
Proof.
  repeat split; vm_compute; reflexivity.
Qed.

(** *** Failures: a raising model, a failing run, an input that does not open *)

(** The background task never raises; it leaves the handles and the written
    frames as [process_video] left them, and removes at most the input file. *)
Lemma process_video_background_run (env : Env) (vp : VideoProcessor)
    (input_path output_path : string) (job_id : Z) (w : World) :
  let w0 := set_log (log w ++ [(INFO, "Starting video processing")]) w in
  let pw := final (process_video env vp input_path output_path w0) in
  exists w',
    process_video_background env vp input_path output_path job_id w = (inr tt, w') /\
    out w' = out pw /\ cap w' = cap pw /\ detect_calls w' = detect_calls pw /\
    (forall p, In p (files pw) -> p <> input_path -> In p (files w')).
Proof.
  intros w0 pw.
  unfold process_video_background, try_except.
  rewrite (bind_inr _ _ w tt w0) by reflexivity.
  unfold pw, final.
  destruct (process_video env vp input_path output_path w0) as [[e|r] w1] eqn:E.
  - rewrite (bind_inl _ _ w0 e w1 E). cbn.
    eexists. split; [reflexivity|]. cbn. repeat split. auto.
  - rewrite (bind_inr _ _ w0 r w1 E).
    rewrite (bind_inr _ _ w1 tt
               (set_log (log w1 ++ [(INFO, "Video processing completed")]) w1))
      by reflexivity.
    unfold os_remove. cbn.
    destruct (existsb (String.eqb input_path) (files w1)).
    + eexists. split; [reflexivity|]. cbn. repeat split.
      intros p Hp Hne. apply filter_In. split; [exact Hp|].
      apply negb_true_iff. apply String.eqb_neq. congruence.
    + eexists. split; [reflexivity|]. cbn. repeat split. auto.
Qed.

Lemma status_completed (job_id : Z) (w : World) (p : string) :
  In p (files w) ->
  startswith p (outputs_dir ++ str_Z job_id ++ "_processed_")%string = true ->
  get_processing_status job_id w = "completed".
Proof.
  intros Hin Hp. unfold get_processing_status, processed_files.
  assert (H : In p (filter (fun q => startswith q
                (outputs_dir ++ str_Z job_id ++ "_processed_")%string) (files w))).
  { apply filter_In. now split. }
  destruct (filter _ (files w)); [contradiction|reflexivity].
Qed.

(** C4 fails on the code: [cap.release()] and [out.release()] are reached
    only when the loop ends normally.  A one-frame video lower than the
    information band makes [_add_frame_overlay] raise on the first frame:
    [process_video] raises with the capture and the writer both left
    unreleased.  The same happens at the 100th frame of a video whose
    container reports a frame count of 0, and at the first frame with a
    stride of 0. *)
Lemma handles_leak_when_the_loop_raises :
  outcome (process_video (Samples.sample_env false) VideoProcessor_init
             "thumbnail.mp4" "out.mp4" initial_world) = inl CvError /\
  option_map cap_released
    (cap (final (process_video (Samples.sample_env false) VideoProcessor_init
                   "thumbnail.mp4" "out.mp4" initial_world))) = Some false /\
  option_map wr_released
    (out (final (process_video (Samples.sample_env false) VideoProcessor_init
                   "thumbnail.mp4" "out.mp4" initial_world))) = Some false /\
  outcome (process_video (Samples.sample_env false) VideoProcessor_init
             "stream.mp4" "out.mp4" initial_world) = inl ZeroDivisionError /\
  handles_released
    (final (process_video (Samples.sample_env false) VideoProcessor_init
              "stream.mp4" "out.mp4" initial_world)) = false /\
  outcome (process_video (Samples.sample_env false) {| frame_skip := 0 |}
             "clip.mp4" "out.mp4" initial_world) = inl ZeroDivisionError /\
  handles_released
    (final (process_video (Samples.sample_env false) {| frame_skip := 0 |}
              "clip.mp4" "out.mp4" initial_world)) = false.
Proof.
  repeat split; vm_compute; reflexivity.
Qed.

(** C5, as amended. When the input cannot be opened, [process_video] raises
    ValueError, which is not an IOError; it returns no result, creates no
    writer and no file. *)
Theorem unopened_input_raises_ValueError (env : Env) (self : VideoProcessor)
    (input_path output_path : string) (w : World) :
  video_at env input_path = None ->
  let run := process_video env self input_path output_path w in
  outcome run = inl (ValueError ("Could not open video: " ++ input_path)%string) /\
  is_IOError (ValueError ("Could not open video: " ++ input_path)%string) = false /\
  out (final run) = out w /\
  files (final run) = files w.
Proof.
  intros Hv run. unfold run, outcome, final, process_video.
  rewrite (bind_inr _ _ w (now env (ticks w)) (set_ticks (S (ticks w)) w))
    by reflexivity.
  unfold try_except, process_video_try. rewrite Hv.
  cbn. repeat split.
Qed.

Lemma unopened_input_raises_ValueError_witness :
  outcome (process_video (Samples.sample_env false) VideoProcessor_init
             "missing.mp4" "out.mp4" initial_world)
    = inl (ValueError "Could not open video: missing.mp4") /\
  files (final (process_video (Samples.sample_env false) VideoProcessor_init
                  "missing.mp4" "out.mp4" initial_world)) = [].
Proof.
  destruct (unopened_input_raises_ValueError (Samples.sample_env false)
              VideoProcessor_init "missing.mp4" "out.mp4" initial_world eq_refl)
    as (H1 & _ & _ & H4).
  split; [exact H1|exact H4].
Defined.

(** C5 as stated fails on both counts.  An input that cannot be opened makes
    [process_video] raise ValueError, not IOError.  An output that cannot be
    created raises nothing: the run goes through the three frames, writes
    none of them, and returns a result. *)
Lemma no_IOError_from_process_video :
  outcome (process_video (Samples.sample_env false) VideoProcessor_init
             "missing.mp4" "out.mp4" initial_world)
    = inl (ValueError "Could not open video: missing.mp4") /\
  is_IOError (ValueError "Could not open video: missing.mp4") = false /\
  writable (Samples.sample_env false) "/readonly/out.mp4" = false /\
  outcome (process_video (Samples.sample_env false) VideoProcessor_init
             "clip.mp4" "/readonly/out.mp4" initial_world)
    = inr (result_of "clip.mp4" "/readonly/out.mp4" 30 640 480 3
             {| processed_frames := 3; total_detections := 4;
                frame_times := [3; 3; 3]%Q; frame_num := 3 |} 13) /\
  written_frames (final (process_video (Samples.sample_env false)
                           VideoProcessor_init "clip.mp4" "/readonly/out.mp4"
                           initial_world)) = [].
Proof.
  repeat split; vm_compute; reflexivity.
Qed.

(** *** A raising model against a model that finds nothing *)

























(** *** The submission endpoint *)

Lemma substring_whole (s : string) : substring 0 (String.length s) s = s.
Proof.
  induction s as [|c s IH]; cbn; [reflexivity|]. now rewrite IH.
Qed.

Lemma substring_skip (p s : string) (m : nat) :
  substring (String.length p) m (p ++ s) = substring 0 m s.
Proof.
  induction p as [|c p IH]; cbn; [reflexivity|]. exact IH.
Qed.

Lemma string_split_at (s : string) :
  forall k, (k <= String.length s)%nat ->
    s = (substring 0 k s ++ substring k (String.length s - k) s)%string.
Proof.
  induction s as [|c s IH]; intros k Hk.
  - destruct k; reflexivity.
  - destruct k as [|k].
    + cbn. now rewrite substring_whole.
    + cbn in Hk. cbn. f_equal. apply IH. lia.
Qed.

Lemma endswith_spec (s suffix : string) :
  endswith s suffix = true <-> exists p, s = (p ++ suffix)%string.
Proof.
  unfold endswith. split.
  - destruct (String.length suffix <=? String.length s)%nat eqn:E; [|discriminate].
    apply Nat.leb_le in E. intro H. apply String.eqb_eq in H.
    exists (substring 0 (String.length s - String.length suffix) s).
    pose proof (string_split_at s (String.length s - String.length suffix)
                  (Nat.le_sub_l _ _)) as Hs.
    replace (String.length s - (String.length s - String.length suffix))%nat
      with (String.length suffix) in Hs by lia.
    rewrite H in Hs. exact Hs.
  - intros (p & ->). rewrite string_length_app.
    replace (String.length suffix <=? String.length p + String.length suffix)%nat
      with true by (symmetry; apply Nat.leb_le; lia).
    replace (String.length p + String.length suffix - String.length suffix)%nat
      with (String.length p) by lia.
    rewrite substring_skip, substring_whole. apply String.eqb_refl.
Qed.

Lemma extension_of_dotted (e : string) :
  extension e = None ->
  forall p, extension (p ++ String "." e) = Some e.
Proof.
  intros He p. induction p as [|c p IH]; cbn.
  - now rewrite He.
  - cbn in IH. now rewrite IH.
Qed.

Lemma extension_dotted (s e : string) :
  extension s = Some e -> exists p, s = (p ++ String "." e)%string.
Proof.
  revert e. induction s as [|c s IH]; intros e H; cbn in H; [discriminate|].
  destruct (extension s) as [e'|].
  - injection H as ->. destruct (IH e eq_refl) as (p & ->).
    now exists (String c p).
  - destruct (Ascii.eqb c ".") eqn:Ec; [|discriminate].
    injection H as ->. apply Ascii.eqb_eq in Ec. subst c.
    now exists "".
Qed.

(** Ending with a dot and a dot-free text is having that text as extension. *)
Lemma endswith_extension (s a : string) :
  extension a = None ->
  endswith s (String "." a) =
  match extension s with
  | Some e => String.eqb e a
  | None => false
  end.
Proof.
  intro Ha.
  destruct (endswith s (String "." a)) eqn:E.
  - apply endswith_spec in E. destruct E as (p & ->).
    rewrite (extension_of_dotted a Ha p). symmetry. apply String.eqb_refl.
  - destruct (extension s) as [e|] eqn:Ee; [|reflexivity].
    destruct (String.eqb e a) eqn:Eea; [|reflexivity].
    apply String.eqb_eq in Eea. subst e.
    apply extension_dotted in Ee.
    apply endswith_spec in Ee. congruence.
Qed.

(** The check made by [detect_objects_video] is the check on the extension
    of the lowered name. *)
Lemma allowed_suffix_check (env : Env) (name : string) :
  endswith_any (str_lower env name) allowed_suffixes = has_allowed_extension env name.
Proof.
  unfold endswith_any, allowed_suffixes, has_allowed_extension, allowed_extensions.
  cbn [existsb].
  rewrite (endswith_extension (str_lower env name) "mp4" eq_refl).
  rewrite (endswith_extension (str_lower env name) "avi" eq_refl).
  rewrite (endswith_extension (str_lower env name) "mov" eq_refl).
  rewrite (endswith_extension (str_lower env name) "mkv" eq_refl).
  destruct (extension (str_lower env name)); reflexivity.
Qed.

(** C9, as amended. While the detector is not loaded every submission is
    answered 503, whatever its name, with nothing written to disk, no task
    scheduled and nothing else changed.  With the detector loaded: a file
    whose extension, compared without regard to case, is not mp4, avi, mov
    or mkv is rejected with status 400, with nothing written to disk, no
    task scheduled and nothing else changed; a file with an allowed
    extension is not rejected with 400: the upload is saved and a task
    scheduled (status 200), or the saving fails (status 500). *)
Theorem unsupported_extension_rejected (env : Env) (srv : Server)
    (file : UploadFile) (w : World) :
  (detector_loaded srv = false ->
     detect_objects_video env srv file w =
       (inr (HTTPException 503 (Text "Model not loaded"), srv), w)) /\
  (detector_loaded srv = true ->
   has_allowed_extension env (filename file) = false ->
     detect_objects_video env srv file w =
       (inr (HTTPException 400 (Text "Invalid video format"), srv), w)) /\
  (detector_loaded srv = true ->
   has_allowed_extension env (filename file) = true ->
     exists resp srv' w',
       detect_objects_video env srv file w = (inr (resp, srv'), w') /\
       (status_code_of resp = 200 \/ status_code_of resp = 500) /\
       (status_code_of resp = 200 ->
          List.length (background_tasks srv') = S (List.length (background_tasks srv)) /\
          List.length (files w') = S (List.length (files w))) /\
       (status_code_of resp = 500 -> srv' = srv /\ files w' = files w)).
Proof.
  unfold detect_objects_video. rewrite allowed_suffix_check.
  split; [intros ->; reflexivity|].
  split; intros -> Hext; rewrite Hext; cbn [negb]; [reflexivity|].
  unfold try_except.
  rewrite (bind_inr _ _ w (now env (ticks w)) (set_ticks (S (ticks w)) w))
    by reflexivity.
  unfold save_file.
  destruct (writable env _) eqn:Ew.
  - eexists _, _, _. split; [reflexivity|]. cbn.
    split; [now left|]. split.
    + intros _. rewrite length_app. cbn. split; [lia|reflexivity].
    + discriminate.
  - eexists _, _, _. split; [reflexivity|]. cbn.
    split; [now right|]. split.
    + discriminate.
    + intros _. split; reflexivity.
Qed.

Lemma unsupported_extension_rejected_witness :
  detect_objects_video (Samples.sample_env true)
    {| detector_loaded := true; background_tasks := [] |}
    {| filename := "clip.TXT"; contents := [] |} initial_world =
  (inr (HTTPException 400 (Text "Invalid video format"),
        {| detector_loaded := true; background_tasks := [] |}), initial_world).
Proof.
  apply (unsupported_extension_rejected (Samples.sample_env true)
           {| detector_loaded := true; background_tasks := [] |}
           {| filename := "clip.TXT"; contents := [] |} initial_world).
  - reflexivity.
  - vm_compute. reflexivity.
Defined.

(** C9 as stated fails while the detector is not loaded: the handler answers
    503 before it looks at the file name, so a file named clip.txt is
    rejected with a 5xx status, not a 4xx one. *)
Lemma unloaded_detector_answers_503 :
  has_allowed_extension (Samples.sample_env true) "clip.txt" = false /\
  detect_objects_video (Samples.sample_env true)
    {| detector_loaded := false; background_tasks := [] |}
    {| filename := "clip.txt"; contents := [] |} initial_world =
  (inr (HTTPException 503 (Text "Model not loaded"),
        {| detector_loaded := false; background_tasks := [] |}), initial_world) /\
  (503 <? 500) = false.
Proof.
  repeat split; vm_compute; reflexivity.
Qed.

(* ===================================================================== *)
(** ** Further properties *)
(* ===================================================================== *)

Import DetectorInfo Stream Jobs Props2.

(** *** The detector: what is kept, what voids a frame, what is counted *)

Lemma detection_of_box_kept (env : Env) (self : SportsDetector) (i : nat)
    (b : RawBox) (d : Detection) :
  detection_of_box env self i b = inr (Some d) ->
  keeps self b = true /\ detection_summary d = box_summary (i, b).
Proof.
  unfold detection_of_box, keeps.
  destruct (is_sports_class self (cls b) || (cls b =? 0)); [|discriminate].
  destruct (xyxy b) as [[[x1 y1] x2] y2] eqn:Eb.
  destruct (yolo_names env (cls b)); [|discriminate].
  intro H. injection H as <-. split; [reflexivity|].
  unfold detection_summary, box_summary. cbn. now rewrite Eb.
Qed.

Lemma detection_of_box_dropped (env : Env) (self : SportsDetector) (i : nat)
    (b : RawBox) :
  detection_of_box env self i b = inr None -> keeps self b = false.
Proof.
  unfold detection_of_box, keeps.
  destruct (is_sports_class self (cls b) || (cls b =? 0)); [|reflexivity].
  destruct (xyxy b) as [[[x1 y1] x2] y2].
  destruct (yolo_names env (cls b)); discriminate.
Qed.

Lemma extract_boxes_kept (env : Env) (self : SportsDetector) :
  forall boxes i acc dets,
    extract_boxes env self i boxes acc = inr dets ->
    map detection_summary dets =
    map detection_summary acc ++
    map box_summary (filter (fun ib => keeps self (snd ib)) (indexed i boxes)).
Proof.
  induction boxes as [|b rest IH]; intros i acc dets H; cbn in H.
  - injection H as <-. cbn. now rewrite app_nil_r.
  - cbn [indexed filter snd].
    destruct (detection_of_box env self i b) as [e|[d|]] eqn:E; [discriminate| |].
    + destruct (detection_of_box_kept env self i b d E) as (Hk & Hs).
      rewrite Hk. rewrite (IH _ _ _ H), map_app. cbn [map].
      rewrite <- app_assoc. cbn [app]. now rewrite Hs.
    + rewrite (detection_of_box_dropped env self i b E). exact (IH _ _ _ H).
Qed.

(** [detect_frame], by what its [try] block does. *)
Lemma detect_frame_cases (env : Env) (frame : Frame) (w : World) :
  detect_frame env frame w =
  match detect_frame_try env frame (now env (ticks w)) (set_ticks (S (ticks w)) w) with
  | (inr r, w1) => (inr r, w1)
  | (inl e, w1) =>
      (inr {| detections := [];
              inference_time := (now env (ticks w1) - now env (ticks w))%Q;
              frame_shape := None; model_confidence := None; error := Some e |},
       set_ticks (S (ticks w1)) (set_log (log w1 ++ [(ERROR, "Detection failed")]) w1))
  end.
Proof.
  unfold detect_frame. unfold bind at 1. unfold time_time at 1. unfold try_except.
  destruct (detect_frame_try env frame (now env (ticks w)) (set_ticks (S (ticks w)) w))
    as [[e|r] w1]; reflexivity.
Qed.

(** X1. When the [try] block of [detect_frame] completes on a result with
    boxes, the detections are the boxes whose class is one of the sports
    classes or 0, in the model's order, none added and none dropped; each
    carries as 'id' the position of its box among all the boxes, and the
    box's class id, confidence and corners unchanged. *)
Theorem detections_are_the_kept_boxes (env : Env) (frame : Frame) (w : World)
    (boxes : list RawBox) (more : list (option (list RawBox))) (r : DetectResult) :
  yolo env frame (confidence_threshold (detector w)) (iou_threshold (detector w))
    = ModelReturns (Some boxes :: more) ->
  outcome (detect_frame env frame w) = inr r ->
  succeeded r = true ->
  map detection_summary (detections r) =
  map box_summary (filter (fun ib => keeps (detector w) (snd ib)) (indexed 0 boxes)).
Proof.
  intros Hy Hr Hs.
  unfold outcome in Hr. rewrite detect_frame_cases, detect_frame_try_run in Hr.
  cbn in Hr. rewrite Hy in Hr. cbn [extract_detections] in Hr.
  destruct (extract_boxes env (detector w) 0 boxes []) as [e|dets] eqn:E;
    cbn in Hr; injection Hr as <-.
  - discriminate.
  - cbn. exact (extract_boxes_kept env (detector w) boxes 0 [] dets E).
Qed.

Lemma detections_are_the_kept_boxes_witness :
  map detection_summary
    (detections_for (Samples.sample_env false) SportsDetector_init
       (Samples.frame_of 480 0)) =
  [(0%nat, 0, 0.875%Q, (10, 0, 110, 100)%Q);
   (1%nat, 32, 0.75%Q, (300, 240, 320, 260)%Q)].
Proof.
  assert (H : outcome (detect_frame (Samples.sample_env false)
                         (Samples.frame_of 480 0) initial_world)
              = inr {| detections :=
                         detections_for (Samples.sample_env false)
                           SportsDetector_init (Samples.frame_of 480 0);
                       inference_time := 1;
                       frame_shape := Some (480, 640, 3);
                       model_confidence := Some 0.5%Q;
                       error := None |}) by (vm_compute; reflexivity).
  exact (detections_are_the_kept_boxes (Samples.sample_env false)
           (Samples.frame_of 480 0) initial_world
           [Samples.person_box; Samples.ball_box] [] _ eq_refl H eq_refl).
Defined.

Lemma extract_boxes_unnamed (env : Env) (self : SportsDetector) :
  forall boxes i acc,
    Exists (fun b => keeps self b = true /\ yolo_names env (cls b) = None) boxes ->
    exists c, extract_boxes env self i boxes acc = inl (KeyError c).
Proof.
  induction boxes as [|b rest IH]; intros i acc H.
  - inversion H.
  - cbn.
    destruct (detection_of_box env self i b) as [e|[d|]] eqn:E.
    + unfold detection_of_box in E.
      destruct (is_sports_class self (cls b) || (cls b =? 0)); [|discriminate].
      destruct (xyxy b) as [[[x1 y1] x2] y2].
      destruct (yolo_names env (cls b)); [discriminate|].
      injection E as <-. now exists (cls b).
    + inversion H as [? ? (Hk & Hn)|? ? Hrest]; subst.
      * unfold detection_of_box in E. unfold keeps in Hk. rewrite Hk, Hn in E.
        destruct (xyxy b) as [[[x1 y1] x2] y2]. discriminate.
      * exact (IH _ _ Hrest).
    + inversion H as [? ? (Hk & Hn)|? ? Hrest]; subst.
      * rewrite (detection_of_box_dropped env self i b E) in Hk. discriminate.
      * exact (IH _ _ Hrest).
Qed.

(** X2. One kept box whose class id is missing from [self.model.names] voids
    the whole frame: [detect_frame] returns no detection at all, the boxes
    before it included, with an 'error' entry for the KeyError, and the
    detector's counters stay as they were. *)
Theorem unnamed_class_voids_the_frame (env : Env) (frame : Frame) (w : World)
    (boxes : list RawBox) (more : list (option (list RawBox))) :
  yolo env frame (confidence_threshold (detector w)) (iou_threshold (detector w))
    = ModelReturns (Some boxes :: more) ->
  Exists (fun b => keeps (detector w) b = true /\ yolo_names env (cls b) = None)
         boxes ->
  exists r w' c,
    detect_frame env frame w = (inr r, w') /\
    detections r = [] /\ error r = Some (KeyError c) /\
    detector w' = detector w.
Proof.
  intros Hy Hex.
  rewrite detect_frame_cases, detect_frame_try_run. cbn.
  rewrite Hy. cbn [extract_detections].
  destruct (extract_boxes_unnamed env (detector w) boxes 0 [] Hex) as (c & ->).
  eexists _, _, c. repeat split.
Qed.

Lemma unnamed_class_voids_the_frame_witness :
  exists r w',
    detect_frame Samples2.nameless_env (Samples.frame_of 480 0) initial_world
      = (inr r, w') /\
    detections r = [] /\ error r = Some (KeyError 32).
Proof.
  destruct (unnamed_class_voids_the_frame Samples2.nameless_env
              (Samples.frame_of 480 0) initial_world
              [Samples.person_box; Samples.ball_box] [] eq_refl)
    as (r & w' & c & Hrun & Hd & He & _).
  - right. left. split; reflexivity.
  - exists r, w'. split; [exact Hrun|]. split; [exact Hd|].
    assert (Hc : fst (detect_frame Samples2.nameless_env (Samples.frame_of 480 0)
                        initial_world)
                 = inr {| detections := []; inference_time := 1;
                          frame_shape := None; model_confidence := None;
                          error := Some (KeyError 32) |})
      by (vm_compute; reflexivity).
    rewrite Hrun in Hc. cbn in Hc. injection Hc as ->. reflexivity.
Defined.

Lemma detect_frame_counts (env : Env) (frame : Frame) (w : World) :
  exists r w',
    detect_frame env frame w = (inr r, w') /\
    total_inferences (detector w') =
      total_inferences (detector w) + (if succeeded r then 1 else 0) /\
    total_inference_time (detector w') =
      (if succeeded r
       then (total_inference_time (detector w) + inference_time r)%Q
       else total_inference_time (detector w)) /\
    same_config (detector w') (detector w).
Proof.
  rewrite detect_frame_cases, detect_frame_try_run. cbn.
  destruct (yolo env frame _ _) as [msg|results].
  - eexists _, _. split; [reflexivity|]. cbn. rewrite Z.add_0_r. repeat split.
  - destruct (extract_detections env (detector w) results) as [e|dets].
    + eexists _, _. split; [reflexivity|]. cbn. rewrite Z.add_0_r. repeat split.
    + eexists _, _. split; [reflexivity|]. cbn. repeat split.
Qed.

(** X3. A run of [detect_frame] calls never raises and returns one result per
    frame; the detector's 'total_inferences' grows by the number of calls
    whose [try] block completed, the failed ones are not counted, and the
    thresholds and the classes stay as they were. *)
Theorem failed_inferences_are_not_counted (env : Env) (frames : list Frame) :
  forall w,
  exists rs w',
    detect_each env frames w = (inr rs, w') /\
    List.length rs = List.length frames /\
    total_inferences (detector w') =
      total_inferences (detector w) + Z.of_nat (List.length (filter succeeded rs)) /\
    same_config (detector w') (detector w).
Proof.
  induction frames as [|frame rest IH]; intro w.
  - exists [], w. cbn. rewrite Z.add_0_r. repeat split.
  - destruct (detect_frame_counts env frame w) as (r & w1 & Hrun & Hn & _ & Hc).
    destruct (IH w1) as (rs & w' & Hrest & Hlen & Hn' & Hc').
    exists (r :: rs), w'.
    cbn [detect_each]. rewrite (bind_inr _ _ w r w1 Hrun).
    rewrite (bind_inr _ _ w1 rs w' Hrest).
    split; [reflexivity|]. cbn [List.length filter].
    split; [now rewrite Hlen|].
    split.
    + rewrite Hn', Hn. destruct (succeeded r); cbn [List.length]; lia.
    + exact (same_config_trans _ _ _ Hc' Hc).
Qed.

Lemma py_fdiv_nonzero (a b : Q) : ~ (b == 0)%Q -> py_fdiv a b = inr (a / b)%Q.
Proof.
  intro H. unfold py_fdiv. destruct (Qeq_bool b 0) eqn:E; [|reflexivity].
  apply Qeq_bool_iff in E. contradiction.
Qed.

(** X4. [get_model_info] returns for every state of the detector, without
    dividing by zero: the average is 'total_inference_time' over
    'total_inferences' when inferences were counted and 0 otherwise, and the
    fps estimate is the inverse of a positive average and 0 otherwise. *)
Theorem get_model_info_never_divides_by_zero (self : SportsDetector) :
  exists info,
    get_model_info self = inr info /\
    info_total_inferences info = total_inferences self /\
    average_inference_time info =
      (if 0 <? total_inferences self
       then total_inference_time self / inject_Z (total_inferences self)
       else 0)%Q /\
    fps_estimate info =
      (if Qgtb (average_inference_time info) 0
       then 1 / average_inference_time info else 0)%Q.
Proof.
  unfold get_model_info.
  assert (Hd : (0 <? total_inferences self) = true ->
               py_fdiv (total_inference_time self) (inject_Z (total_inferences self))
               = inr (total_inference_time self / inject_Z (total_inferences self))%Q).
  { intro H. apply py_fdiv_nonzero. apply Z.ltb_lt in H.
    unfold Qeq, inject_Z. cbn. lia. }
  assert (Hf : forall a, Qgtb a 0 = true -> py_fdiv 1 a = inr (1 / a)%Q).
  { intros a H. apply py_fdiv_nonzero. apply Qgtb_true in H.
    intro E. rewrite E in H. exact (Qlt_irrefl 0 H). }
  destruct (0 <? total_inferences self) eqn:E.
  - rewrite (Hd eq_refl).
    destruct (Qgtb (total_inference_time self / inject_Z (total_inferences self)) 0)
      eqn:G.
    + rewrite (Hf _ G). eexists. split; [reflexivity|]. cbn. now rewrite G.
    + eexists. split; [reflexivity|]. cbn. now rewrite G.
  - cbn. eexists. split; [reflexivity|]. cbn. repeat split.
Qed.



(** *** The pipeline on every input *)

Lemma detections_in_config (env : Env) (k : Z) (d d' : SportsDetector) :
  same_config d d' ->
  forall fs n, detections_in env k d n fs = detections_in env k d' n fs.
Proof.
  intros H. induction fs as [|f rest IH]; intro n; cbn; [reflexivity|].
  now rewrite IH, (detections_for_config env d d' f H).
Qed.

Section FrameLoopAny.
Variable env : Env.
Variable self : VideoProcessor.
Variable total_frames : Z.

Lemma frame_loop_stride_zero (frame : Frame) (rest : list Frame) (st : Locals)
    (w : World) :
  frame_skip self = 0 ->
  frame_loop env self total_frames (frame :: rest) st w = (inl ZeroDivisionError, w).
Proof.
  intro H. cbn [frame_loop]. rewrite H.
  apply bind_inl. reflexivity.
Qed.

(** One processed frame, whatever it holds and whatever the reported frame
    count: the annotator or the band raises and nothing is written, or the
    frame is written and the loop goes on, unless the progress line divides
    by zero. *)
Lemma frame_loop_process_any (frame : Frame) (rest : list Frame) (st : Locals)
    (w : World) :
  frame_skip self <> 0 ->
  selected (frame_skip self) (frame_num st) = true ->
  exists w1,
    cap w1 = cap w /\ files w1 = files w /\
    same_config (detector w1) (detector w) /\
    ((frame_loop env self total_frames (frame :: rest) st w = (inl CvError, w1) /\
      out w1 = out w) \/
     (exists g,
        written_for env (frame_skip self) (detector w) (frame_num st) frame g /\
        out w1 = option_map (fun o => write o g) (out w) /\
        ((total_frames = 0 /\
          frame_loop env self total_frames (frame :: rest) st w
            = (inl ZeroDivisionError, w1)) \/
         (exists ft,
            frame_loop env self total_frames (frame :: rest) st w =
            frame_loop env self total_frames rest
              {| processed_frames := processed_frames st + 1;
                 total_detections :=
                   total_detections st +
                   Z.of_nat (List.length (detections_for env (detector w) frame));
                 frame_times := frame_times st ++ [ft];
                 frame_num := frame_num st + 1 |} w1)))).
Proof.
  intros stride Hsel. unfold selected in Hsel. cbn [frame_loop].
  rewrite (bind_inr _ _ w (frame_num st mod frame_skip self) w)
    by (unfold lift; now rewrite py_mod_nonzero).
  cbn beta. rewrite Hsel. cbn [negb].
  rewrite (bind_inr _ _ w (now env (ticks w)) (set_ticks (S (ticks w)) w))
    by reflexivity.
  cbn beta.
  set (w2 := set_detect_calls (detect_calls w ++ [frame_num st])
               (set_ticks (S (ticks w)) w)).
  rewrite (bind_inr _ _ _ tt w2) by reflexivity.
  destruct (detect_frame_run env frame w2)
    as (r & w3 & Hrun & Hdets & Hticks & Hcfg & Hcap & Hout & Hfiles & Hcalls).
  rewrite (bind_inr _ _ _ r w3 Hrun).
  rewrite (bind_inr _ _ w3 (now env (ticks w3)) (set_ticks (S (ticks w3)) w3))
    by reflexivity.
  cbn beta.
  replace (detector w2) with (detector w) in Hdets, Hcfg by reflexivity.
  replace (cap w2) with (cap w) in Hcap by reflexivity.
  replace (out w2) with (out w) in Hout by reflexivity.
  replace (files w2) with (files w) in Hfiles by reflexivity.
  destruct (draw_detections_cases env frame (detections r))
    as [Hdraw|(a & Hdraw & Hheight & _)].
  { exists (set_ticks (S (ticks w3)) w3).
    split; [exact Hcap|]. split; [exact Hfiles|]. split; [exact Hcfg|].
    left. split; [|exact Hout].
    apply bind_inl. unfold lift. now rewrite Hdraw. }
  rewrite (bind_inr _ _ _ a (set_ticks (S (ticks w3)) w3))
    by (unfold lift; now rewrite Hdraw).
  destruct (Z_lt_le_dec (height frame) overlay_height) as [Hlow|Hfit].
  - exists (set_ticks (S (ticks w3)) w3).
    split; [exact Hcap|]. split; [exact Hfiles|]. split; [exact Hcfg|].
    left. split; [|exact Hout].
    apply bind_inl. unfold lift. f_equal.
    apply add_frame_overlay_low. now rewrite Hheight.
  - assert (Hfit' : band_fits a) by (unfold band_fits; now rewrite Hheight).
    destruct (add_frame_overlay_fits a (frame_num st)
                (Z.of_nat (List.length (detections r)))
                (now env (ticks w3) - now env (ticks w))%Q Hfit')
      as (g & Hg & _).
    rewrite (bind_inr _ _ _ g (set_ticks (S (ticks w3)) w3))
      by (unfold lift; now rewrite Hg).
    set (w4 := set_out (option_map (fun o => write o g) (out w3))
                 (set_ticks (S (ticks w3)) w3)).
    rewrite (bind_inr _ _ _ tt w4) by reflexivity.
    assert (Hwf : written_for env (frame_skip self) (detector w) (frame_num st)
                    frame g).
    { unfold written_for, selected. rewrite Hsel.
      exists a, (now env (ticks w3) - now env (ticks w))%Q.
      rewrite Hdets in Hg, Hdraw. split; [exact Hdraw|exact Hg]. }
    assert (H4 : cap w4 = cap w /\ files w4 = files w /\
                 same_config (detector w4) (detector w) /\
                 out w4 = option_map (fun o => write o g) (out w)).
    { unfold w4. cbn. rewrite Hcap, Hfiles, Hout. repeat split; apply Hcfg. }
    destruct H4 as (Hc4 & Hf4 & Hd4 & Ho4).
    destruct ((processed_frames st + 1) mod 100 =? 0) eqn:E100.
    + destruct (Z.eq_dec total_frames 0) as [Hz|Hnz].
      * exists w4. split; [exact Hc4|]. split; [exact Hf4|]. split; [exact Hd4|].
        right. exists g. split; [exact Hwf|].
        split; [exact Ho4|]. left. split; [exact Hz|].
        apply bind_inl. apply bind_inl. unfold lift, py_truediv.
        rewrite Hz. reflexivity.
      * rewrite (bind_inr _ _ w4 tt
                   (if info_enabled env
                    then set_log (log w4 ++ [(INFO, "Progress")]) w4 else w4)).
        2:{ rewrite (bind_inr _ _ w4 _ w4 (f_equal (fun x => (x, w4))
                       (py_truediv_nonzero (frame_num st) total_frames Hnz))).
            unfold logger_info, modify, ret. destruct (info_enabled env); reflexivity. }
        exists (if info_enabled env
                then set_log (log w4 ++ [(INFO, "Progress")]) w4 else w4).
        destruct (info_enabled env); cbn [cap files detector out set_log];
          (split; [exact Hc4|]; split; [exact Hf4|]; split; [exact Hd4|];
           right; exists g; split; [exact Hwf|];
           split; [exact Ho4|]; right;
           exists (now env (ticks w3) - now env (ticks w))%Q;
           rewrite Hdets; reflexivity).
    + rewrite (bind_inr _ _ w4 tt w4) by reflexivity.
      exists w4. split; [exact Hc4|]. split; [exact Hf4|]. split; [exact Hd4|].
      right. exists g. split; [exact Hwf|].
      split; [exact Ho4|]. right.
      exists (now env (ticks w3) - now env (ticks w))%Q.
      rewrite Hdets. reflexivity.
Qed.

(** The loop on any frames: what it has written when it ends or raises is
    what the pipeline writes for the first [m] frames, in order. *)
Lemma frame_loop_any :
  forall pending st w o,
    out w = Some o ->
    exists x w' m written,
      frame_loop env self total_frames pending st w = (x, w') /\
      out w' = Some (fold_left write written o) /\
      (m <= List.length pending)%nat /\
      Written env (frame_skip self) (detector w) (frame_num st)
        (firstn m pending) written /\
      cap w' = cap w /\ files w' = files w /\
      same_config (detector w') (detector w) /\
      match x with
      | inr st' =>
          m = List.length pending /\
          total_detections st' =
            total_detections st +
            detections_in env (frame_skip self) (detector w) (frame_num st) pending /\
          processed_frames st' =
            processed_frames st +
            Z.of_nat (List.length
                        (filter (selected (frame_skip self))
                                (frame_numbers (frame_num st) (List.length pending))))
      | inl e => e = ZeroDivisionError \/ e = CvError
      end.
Proof.
  induction pending as [|frame rest IH]; intros st w o Hout.
  - exists (inr st), w, 0%nat, []. cbn. rewrite !Z.add_0_r.
    repeat split; try reflexivity; try exact Hout. constructor.
  - destruct (Z.eq_dec (frame_skip self) 0) as [Hz|Hnz].
    { exists (inl ZeroDivisionError), w, 0%nat, [].
      rewrite (frame_loop_stride_zero frame rest st w Hz). cbn.
      repeat split; try reflexivity; try exact Hout; try lia.
      - constructor.
      - now left. }
    destruct (selected (frame_skip self) (frame_num st)) eqn:Hsel.
    + destruct (frame_loop_process_any frame rest st w Hnz Hsel)
        as (w1 & Hcap1 & Hfiles1 & Hcfg1 & [(Hrun & Hout1)|(g & Hwf & Hout1 & Hnext)]).
      * exists (inl CvError), w1, 0%nat, []. rewrite Hrun. cbn.
        rewrite Hout1, Hout.
        repeat split; try reflexivity; try assumption; try lia; try apply Hcfg1.
        -- constructor.
        -- now right.
      * rewrite Hout in Hout1. cbn in Hout1.
        destruct Hnext as [(Htf & Hrun)|(ft & Hrun)].
        -- exists (inl ZeroDivisionError), w1, 1%nat, [g]. rewrite Hrun. cbn.
           repeat split; try assumption; try lia; try apply Hcfg1.
           ++ constructor; [exact Hwf|constructor].
           ++ now left.
        -- rewrite Hrun.
           destruct (IH {| processed_frames := processed_frames st + 1;
                           total_detections :=
                             total_detections st +
                             Z.of_nat (List.length
                                         (detections_for env (detector w) frame));
                           frame_times := frame_times st ++ [ft];
                           frame_num := frame_num st + 1 |} w1 (write o g) Hout1)
             as (x & w' & m & written & Hloop & Hout' & Hm & HW & Hcap' & Hfiles'
                 & Hcfg' & Hx).
           cbn in HW, Hx.
           exists x, w', (S m), (g :: written). rewrite Hloop.
           split; [reflexivity|]. split; [exact Hout'|]. split; [cbn; lia|].
           split.
           { cbn [firstn]. constructor; [exact Hwf|].
             exact (Written_config env _ _ _ Hcfg1 _ _ _ HW). }
           split; [congruence|]. split; [congruence|].
           split; [exact (same_config_trans _ _ _ Hcfg' Hcfg1)|].
           destruct x as [e|st'].
           ++ exact Hx.
           ++ destruct Hx as (-> & Ht & Hp). split; [reflexivity|].
              rewrite Ht, Hp. cbn [detections_in frame_numbers List.length filter].
              rewrite Hsel. cbn [List.length].
              rewrite (detections_in_config env _ _ _ Hcfg1). lia.
    + rewrite (frame_loop_skip env self total_frames Hnz frame rest st w Hsel).
      destruct (IH {| processed_frames := processed_frames st;
                      total_detections := total_detections st;
                      frame_times := frame_times st;
                      frame_num := frame_num st + 1 |}
                   (set_out (option_map (fun o => write o frame) (out w)) w)
                   (write o frame))
        as (x & w' & m & written & Hloop & Hout' & Hm & HW & Hcap' & Hfiles'
            & Hcfg' & Hx).
      { cbn. now rewrite Hout. }
      cbn in HW, Hcap', Hfiles', Hcfg', Hx.
      exists x, w', (S m), (frame :: written). rewrite Hloop.
      split; [reflexivity|]. split; [exact Hout'|]. split; [cbn; lia|].
      split.
      { cbn [firstn]. constructor; [|exact HW].
        unfold written_for. now rewrite Hsel. }
      split; [exact Hcap'|]. split; [exact Hfiles'|]. split; [exact Hcfg'|].
      destruct x as [e|st'].
      * exact Hx.
      * destruct Hx as (-> & Ht & Hp). split; [reflexivity|].
        rewrite Ht, Hp. cbn [detections_in frame_numbers List.length filter].
        rewrite Hsel. lia.
Qed.

End FrameLoopAny.

(** [process_video] on a video that opens, by what its frame loop does. *)
Lemma process_video_opened (env : Env) (self : VideoProcessor)
    (input_path output_path : string) (w : World) (v : Video) :
  video_at env input_path = Some v ->
  process_video env self input_path output_path w =
  match frame_loop env self (py_int (CAP_PROP_FRAME_COUNT v)) (frames v)
          initial_locals (world_before_loop env output_path v w) with
  | (inr st, w3) =>
      let wF := set_ticks (S (ticks w3))
                  (set_out (option_map release_writer (out w3))
                     (set_cap (option_map release_capture (cap w3)) w3)) in
      if info_enabled env
      then (inl TypeError,
            set_log (log wF ++ [(ERROR, "Video processing failed")]) wF)
      else (inr (result_of input_path output_path
                   (py_int (CAP_PROP_FPS v)) (py_int (CAP_PROP_FRAME_WIDTH v))
                   (py_int (CAP_PROP_FRAME_HEIGHT v))
                   (py_int (CAP_PROP_FRAME_COUNT v)) st
                   (now env (ticks w3) - now env (ticks w))%Q), wF)
  | (inl e, w3) =>
      (inl e, set_log (log w3 ++ [(ERROR, "Video processing failed")]) w3)
  end.
Proof.
  intro Hv. unfold process_video.
  rewrite (bind_inr _ _ w (now env (ticks w)) (set_ticks (S (ticks w)) w))
    by reflexivity.
  unfold try_except, process_video_try. rewrite Hv.
  set (c := {| cap_source := Some v; cap_released := false |}).
  rewrite (bind_inr _ _ _ tt (set_cap (Some c) (set_ticks (S (ticks w)) w)))
    by reflexivity.
  cbn [isOpened cap_source cap_released c negb cap_get cap_frames].
  rewrite (bind_inr _ _ _ tt
             (if info_enabled env
              then set_log (log (set_cap (Some c) (set_ticks (S (ticks w)) w))
                            ++ [(INFO, "Processing video")])
                     (set_cap (Some c) (set_ticks (S (ticks w)) w))
              else set_cap (Some c) (set_ticks (S (ticks w)) w)))
    by (unfold logger_info, modify, ret; destruct (info_enabled env); reflexivity).
  rewrite (bind_inr _ _ _ tt (world_before_loop env output_path v w))
    by reflexivity.
  destruct (frame_loop env self (py_int (CAP_PROP_FRAME_COUNT v)) (frames v)
              initial_locals (world_before_loop env output_path v w))
    as [[e|st] w3] eqn:E.
  - rewrite (bind_inl _ _ _ e w3 E). reflexivity.
  - rewrite (bind_inr _ _ _ st w3 E). rewrite finish_run.
    destruct (info_enabled env); reflexivity.
Qed.

Lemma process_video_unopened (env : Env) (self : VideoProcessor)
    (input_path output_path : string) (w : World) :
  video_at env input_path = None ->
  outcome (process_video env self input_path output_path w) =
  inl (ValueError ("Could not open video: " ++ input_path)%string).
Proof.
  intro Hv. unfold outcome, process_video.
  rewrite (bind_inr _ _ w (now env (ticks w)) (set_ticks (S (ticks w)) w))
    by reflexivity.
  unfold try_except, process_video_try. rewrite Hv. reflexivity.
Qed.

Lemma world_before_loop_detector (env : Env) (output_path : string)
    (v : Video) (w : World) :
  detector (world_before_loop env output_path v w) = detector w.
Proof.
  unfold world_before_loop.
  destruct (info_enabled env), (writable env output_path); reflexivity.
Qed.

(** X8. On a video that opens, with an output that can be created, what the
    writer holds when [process_video] ends or raises is always what the
    pipeline writes for the first m frames of the input, in their order,
    for some m: nothing is written out of order, twice, or for a frame that
    was not read.  When the run reaches the cleanup (a result is returned,
    or only the closing log call raises), m is the number of frames. *)
Theorem output_is_a_prefix_of_the_input (env : Env) (self : VideoProcessor)
    (input_path output_path : string) (w : World) (v : Video) :
  video_at env input_path = Some v ->
  writable env output_path = true ->
  let run := process_video env self input_path output_path w in
  exists m,
    (m <= List.length (frames v))%nat /\
    Written env (frame_skip self) (detector w) 0 (firstn m (frames v))
      (written_frames (final run)) /\
    match outcome run with
    | inr _ | inl TypeError => m = List.length (frames v)
    | inl _ => True
    end.
Proof.
  intros Hv Hw run. unfold run, final, outcome.
  rewrite (process_video_opened env self _ _ w v Hv).
  destruct (frame_loop_any env self (py_int (CAP_PROP_FRAME_COUNT v)) (frames v)
              initial_locals (world_before_loop env output_path v w)
              (fresh_writer env output_path v) eq_refl)
    as (x & w' & m & written & Hloop & Hout & Hm & HW & _ & _ & _ & Hx).
  rewrite Hloop. rewrite world_before_loop_detector in HW.
  change (frame_num initial_locals) with 0 in HW.
  assert (Hfr : wr_frames (fold_left write written (fresh_writer env output_path v))
                = written).
  { rewrite write_all_frames; [reflexivity| |reflexivity].
    unfold fresh_writer. cbn. exact Hw. }
  exists m. split; [exact Hm|].
  destruct x as [e|st].
  - cbn. unfold written_frames. cbn. rewrite Hout, Hfr.
    split; [exact HW|].
    destruct Hx as [->| ->]; exact I.
  - destruct Hx as (-> & _).
    destruct (info_enabled env); cbn; unfold written_frames; cbn;
      rewrite Hout; cbn; rewrite Hfr; (split; [exact HW|reflexivity]).
Qed.

Lemma output_is_a_prefix_of_the_input_witness :
  exists m,
    (m <= 101)%nat /\
    Written (Samples.sample_env false) 1 SportsDetector_init 0
      (firstn m (frames Samples.stream))
      (written_frames
         (final (process_video (Samples.sample_env false) VideoProcessor_init
                   "stream.mp4" "out.mp4" initial_world))).
Proof.
  destruct (output_is_a_prefix_of_the_input (Samples.sample_env false)
              VideoProcessor_init "stream.mp4" "out.mp4" initial_world
              Samples.stream eq_refl eq_refl) as (m & Hm & HW & _).
  exists m. split; [exact Hm|exact HW].
Defined.

Lemma frame_numbers_snoc (len : nat) :
  forall n, frame_numbers n (S len) = frame_numbers n len ++ [n + Z.of_nat len].
Proof.
  induction len as [|len IH]; intro n.
  - cbn. now rewrite Z.add_0_r.
  - change (frame_numbers n (S (S len)))
      with (n :: frame_numbers (n + 1) (S len)).
    rewrite IH. cbn [frame_numbers app]. do 3 f_equal. lia.
Qed.

Lemma selected_abs (k n : Z) : selected k n = (n mod Z.abs k =? 0).
Proof.
  unfold selected. destruct (Z.eq_dec k 0) as [->|Hk]; [reflexivity|].
  destruct (Z.eqb_spec (n mod k) 0) as [H|H];
    destruct (Z.eqb_spec (n mod Z.abs k) 0) as [H'|H']; try reflexivity; exfalso.
  - apply H'. apply Z.mod_divide; [lia|]. apply Z.divide_abs_l.
    apply Z.mod_divide; [exact Hk|exact H].
  - apply H. apply Z.mod_divide; [exact Hk|]. apply Z.divide_abs_l.
    apply Z.mod_divide; [lia|exact H'].
Qed.

Lemma ceil_div_succ (a n : Z) :
  0 < a -> 0 <= n ->
  (n + 1 + a - 1) / a = (n + a - 1) / a + (if n mod a =? 0 then 1 else 0).
Proof.
  intros Ha Hn.
  pose proof (Z.div_mod n a ltac:(lia)) as Hdm.
  pose proof (Z.mod_pos_bound n a Ha) as Hr.
  set (q := n / a) in *. set (r := n mod a) in *.
  destruct (Z.eqb_spec r 0) as [H0|H0].
  - replace ((n + a - 1) / a) with q
      by (apply (Z.div_unique _ _ q (a - 1)); lia).
    rewrite (Z.div_unique (n + 1 + a - 1) a (q + 1) 0); lia.
  - replace ((n + a - 1) / a) with (q + 1)
      by (apply (Z.div_unique _ _ (q + 1) (r - 1)); lia).
    rewrite (Z.div_unique (n + 1 + a - 1) a (q + 1) r); lia.
Qed.

(** The frames a stride selects among the first [N]: one in every [|k|]. *)
Lemma count_selected (k : Z) (N : nat) :
  k <> 0 ->
  Z.of_nat (List.length (filter (selected k) (frame_numbers 0 N))) =
  (Z.of_nat N + Z.abs k - 1) / Z.abs k.
Proof.
  intro Hk. induction N as [|N IH].
  - cbn. symmetry. apply Z.div_small. lia.
  - rewrite frame_numbers_snoc, filter_app, length_app, Nat2Z.inj_add, IH.
    cbn [filter]. rewrite selected_abs. rewrite Z.add_0_l.
    replace (Z.of_nat (S N) + Z.abs k - 1) with (Z.of_nat N + 1 + Z.abs k - 1) by lia.
    rewrite (ceil_div_succ (Z.abs k) (Z.of_nat N)) by lia.
    destruct (Z.of_nat N mod Z.abs k =? 0); reflexivity.
Qed.

(** X9. The counters of every result [process_video] returns: the number
    of processed frames is that of the frame numbers the stride selects,
    which is N / |k| rounded up for N decoded frames and a stride k other
    than 0 (negative strides select as their absolute value does), and the
    total of detections is the sum, over the selected frames, of the
    detections [detect_frame] reports for each. *)
Theorem returned_counters (env : Env) (self : VideoProcessor)
    (input_path output_path : string) (w : World) (v : Video)
    (r : ProcessingResult) :
  video_at env input_path = Some v ->
  outcome (process_video env self input_path output_path w) = inr r ->
  res_total_detections r =
    detections_in env (frame_skip self) (detector w) 0 (frames v) /\
  res_processed_frames r =
    Z.of_nat (List.length (filter (selected (frame_skip self))
                             (frame_numbers 0 (List.length (frames v))))) /\
  (frame_skip self <> 0 ->
   res_processed_frames r =
     (Z.of_nat (List.length (frames v)) + Z.abs (frame_skip self) - 1)
     / Z.abs (frame_skip self)) /\
  (frame_skip self = 0 -> frames v = []).
Proof.
  intros Hv. unfold outcome.
  rewrite (process_video_opened env self _ _ w v Hv).
  destruct (frame_loop_any env self (py_int (CAP_PROP_FRAME_COUNT v)) (frames v)
              initial_locals (world_before_loop env output_path v w)
              (fresh_writer env output_path v) eq_refl)
    as (x & w' & m & written & Hloop & _ & _ & _ & _ & _ & _ & Hx).
  rewrite Hloop. destruct x as [e|st]; [cbn; discriminate|].
  destruct Hx as (_ & Ht & Hp).
  rewrite world_before_loop_detector in Ht.
  change (frame_num initial_locals) with 0 in Ht, Hp.
  change (total_detections initial_locals) with 0 in Ht.
  change (processed_frames initial_locals) with 0 in Hp.
  destruct (info_enabled env); cbn; [discriminate|].
  intro H. injection H as <-. cbn.
  split; [lia|]. split; [lia|]. split.
  - intro Hk. rewrite Hp, Z.add_0_l. apply count_selected. exact Hk.
  - intro Hk. destruct (frames v) as [|f rest] eqn:Hf; [reflexivity|exfalso].
    pose proof (frame_loop_stride_zero env self (py_int (CAP_PROP_FRAME_COUNT v))
                  f rest initial_locals
                  (world_before_loop env output_path v w) Hk) as Hz.
    rewrite Hloop in Hz. discriminate.
Qed.

Lemma returned_counters_witness :
  res_total_detections Samples.clip_result =
    detections_in (Samples.sample_env false) 1 SportsDetector_init 0
      (frames Samples.clip) /\
  res_processed_frames Samples.clip_result = (3 + Z.abs 1 - 1) / Z.abs 1.
Proof.
  destruct (returned_counters (Samples.sample_env false) VideoProcessor_init
              "clip.mp4" "out.mp4" initial_world Samples.clip Samples.clip_result
              eq_refl ltac:(vm_compute; reflexivity)) as (Ht & _ & Hp & _).
  split; [exact Ht|].
  apply Hp. cbn. discriminate.
Defined.

(** X10. A video that opens and decodes no frame is processed without
    error for every stride, 0 included: with INFO logging disabled
    [process_video] returns a result whose counters and averages are all
    0 (each division is guarded), no frame is written, the detector is not
    called, and both handles are released. *)
Theorem empty_video_returns_zeros (env : Env) (self : VideoProcessor)
    (input_path output_path : string) (w : World) (v : Video) :
  video_at env input_path = Some v ->
  frames v = [] ->
  info_enabled env = false ->
  let run := process_video env self input_path output_path w in
  exists r,
    outcome run = inr r /\
    res_processed_frames r = 0 /\
    res_total_detections r = 0 /\
    res_avg_frame_time r = 0%Q /\
    (res_fps_processed r == 0)%Q /\
    res_avg_detections_per_frame r = 0%Q /\
    written_frames (final run) = [] /\
    detect_calls (final run) = detect_calls w /\
    handles_released (final run) = true.
Proof.
  intros Hv Hf Hi run. unfold run, outcome, final.
  rewrite (process_video_opened env self _ _ w v Hv).
  rewrite Hf. cbn [frame_loop]. unfold ret. rewrite Hi.
  eexists. split; [reflexivity|].
  cbn. unfold world_before_loop, written_frames, handles_released. rewrite Hi.
  assert (Hq : forall t : Q,
             ((if Qgtb t 0 then inject_Z 0 / t else 0) == 0)%Q).
  { intro t. destruct (Qgtb t 0); [|reflexivity].
    unfold Qdiv. apply Qmult_0_l. }
  destruct (writable env output_path); cbn;
    (split; [reflexivity|]); (split; [reflexivity|]); (split; [reflexivity|]);
    (split; [apply Hq|]); repeat split; reflexivity.
Qed.

Lemma empty_video_returns_zeros_witness :
  exists r,
    outcome (process_video Samples2.empty_env Samples2.stride_zero
               "empty.mp4" "out.mp4" initial_world) = inr r /\
    res_processed_frames r = 0 /\
    res_avg_detections_per_frame r = 0%Q /\
    handles_released (final (process_video Samples2.empty_env Samples2.stride_zero
                               "empty.mp4" "out.mp4" initial_world)) = true.
Proof.
  destruct (empty_video_returns_zeros Samples2.empty_env Samples2.stride_zero
              "empty.mp4" "out.mp4" initial_world Samples2.empty_video
              eq_refl eq_refl eq_refl)
    as (r & Hr & Hp & _ & _ & _ & Ha & _ & _ & Hh).
  exists r. split; [exact Hr|]. split; [exact Hp|]. split; [exact Ha|exact Hh].
Defined.

Lemma first_quit_bounds (console : Console) (len : nat) :
  forall n i, first_quit console n len = Some i ->
    (n <= i < n + len)%nat /\ quit_key (waitKey console i) = true /\
    forall j, (n <= j < i)%nat -> quit_key (waitKey console j) = false.
Proof.
  induction len as [|len IH]; intros n i H; cbn in H; [discriminate|].
  destruct (quit_key (waitKey console n)) eqn:E.
  - injection H as <-. split; [lia|]. split; [exact E|]. intros j Hj. lia.
  - destruct (IH _ _ H) as (Hb & Hq & Hn). split; [lia|]. split; [exact Hq|].
    intros j Hj. destruct (Nat.eq_dec j n) as [->|Hne]; [exact E|].
    apply Hn. lia.
Qed.

Lemma first_quit_none (console : Console) (len : nat) :
  forall n, first_quit console n len = None ->
    forall j, (n <= j < n + len)%nat -> quit_key (waitKey console j) = false.
Proof.
  induction len as [|len IH]; intros n H j Hj; [lia|]. cbn in H.
  destruct (quit_key (waitKey console n)) eqn:E; [discriminate|].
  destruct (Nat.eq_dec j n) as [->|Hne]; [exact E|].
  apply (IH _ H). lia.
Qed.

Lemma shown_for_config (env : Env) (d d' : SportsDetector) (f g : Frame) :
  same_config d d' -> shown_for env d f g -> shown_for env d' f g.
Proof.
  intros H. unfold shown_for. now rewrite (detections_for_config env d d' f H).
Qed.

(** The loop of [process_webcam_stream] on any frames, keys and build of
    OpenCV: it leaves the capture, the writer and the files as they are;
    when it returns, it has shown the frames up to the first quit key. *)
Lemma webcam_loop_any (env : Env) (console : Console) :
  forall (pending : list Frame) (n : nat) (shown : list Frame) (w : World),
  exists x w',
    webcam_loop env console pending n shown w = (x, w') /\
    cap w' = cap w /\ out w' = out w /\ files w' = files w /\
    same_config (detector w') (detector w) /\
    match x with
    | inr l =>
        exists new,
          l = shown ++ new /\
          Forall2 (shown_for env (detector w))
                  (firstn (List.length new) pending) new /\
          match first_quit console n (List.length pending) with
          | Some i => (n + List.length new = S i)%nat
          | None => List.length new = List.length pending
          end
    | inl e => True
    end.
Proof.
  induction pending as [|frame rest IH]; intros n shown w.
  - exists (inr shown), w. cbn. repeat split; try reflexivity.
    exists []. rewrite app_nil_r. repeat split; constructor.
  - cbn [webcam_loop].
    destruct (detect_frame_run env frame w)
      as (r & w3 & Hrun & Hdets & _ & Hcfg & Hcap & Hout & Hfiles & _).
    rewrite (bind_inr _ _ _ r w3 Hrun).
    assert (Hstop : forall e (c : M (list Frame)),
              c w3 = (inl e, w3) ->
              exists x w',
                c w3 = (x, w') /\
                cap w' = cap w /\ out w' = out w /\ files w' = files w /\
                same_config (detector w') (detector w) /\
                match x with
                | inr l =>
                    exists new,
                      l = shown ++ new /\
                      Forall2 (shown_for env (detector w))
                        (firstn (List.length new) (frame :: rest)) new /\
                      match first_quit console n (List.length (frame :: rest)) with
                      | Some i => (n + List.length new = S i)%nat
                      | None => List.length new = List.length (frame :: rest)
                      end
                | inl e => True
                end).
    { intros e c Hc. exists (inl e), w3. split; [exact Hc|].
      repeat split; try assumption; apply Hcfg. }
    destruct (draw_detections env frame (detections r)) as [e|a] eqn:Hdraw.
    { apply (Hstop e). apply bind_inl. reflexivity. }
    rewrite (bind_inr _ _ _ a w3) by reflexivity.
    destruct (_add_frame_overlay a 0 (Z.of_nat (List.length (detections r)))
                (inference_time r)) as [e|g] eqn:Hg.
    { apply (Hstop e). apply bind_inl. reflexivity. }
    rewrite (bind_inr _ _ _ g w3) by reflexivity.
    unfold imshow, waitKey_call.
    destruct (gui console).
    2:{ apply (Hstop CvError). apply bind_inl. reflexivity. }
    rewrite (bind_inr _ _ _ (shown ++ [g]) w3) by reflexivity.
    rewrite (bind_inr _ _ _ (waitKey console n) w3) by reflexivity.
    assert (Hshown : shown_for env (detector w) frame g).
    { exists a, (inference_time r). rewrite <- Hdets. split; assumption. }
    cbn [List.length first_quit].
    destruct (quit_key (waitKey console n)) eqn:Hq.
    + exists (inr (shown ++ [g])), w3. split; [reflexivity|].
      repeat split; try assumption; try apply Hcfg.
      exists [g]. split; [reflexivity|]. split.
      * cbn. constructor; [exact Hshown|constructor].
      * cbn. lia.
    + destruct (IH (S n) (shown ++ [g]) w3)
        as (x & w' & Hloop & Hcap' & Hout' & Hfiles' & Hcfg' & Hx).
      exists x, w'. split; [exact Hloop|].
      split; [congruence|]. split; [congruence|]. split; [congruence|].
      split; [exact (same_config_trans _ _ _ Hcfg' Hcfg)|].
      destruct x as [e|l]; [exact I|].
      destruct Hx as (new & -> & HF & Hlen).
      exists (g :: new). split; [now rewrite <- app_assoc|]. split.
      * cbn. constructor; [exact Hshown|].
        eapply Forall2_impl; [|exact HF].
        intros x y. apply shown_for_config. exact Hcfg.
      * destruct (first_quit console (S n) (List.length rest)); cbn; lia.
Qed.

(** X11. [process_webcam_stream] releases its capture on every exit path:
    when the camera runs out of frames, when the quit key is read, and when
    anything raises inside the loop or in the cleanup after the release
    (the release is the first call of the [finally] block); it leaves the
    writer and the files as they were. *)
Theorem webcam_capture_always_released (env : Env) (console : Console)
    (camera_id : Z) (w : World) :
  let run := process_webcam_stream env console camera_id w in
  cap (final run) =
    Some {| cap_source := camera console camera_id; cap_released := true |} /\
  out (final run) = out w /\ files (final run) = files w.
Proof.
  intro run. unfold run, process_webcam_stream, final.
  set (c := {| cap_source := camera console camera_id; cap_released := false |}).
  rewrite (bind_inr _ _ w tt (set_cap (Some c) w)) by reflexivity.
  unfold try_finally.
  destruct (webcam_loop_any env console (cap_frames c) 0 [] (set_cap (Some c) w))
    as (x & w' & Hloop & Hcap & Hout & Hfiles & _ & _).
  rewrite Hloop.
  set (w1 := set_cap (option_map release_capture (cap w')) w').
  assert (Hclean :
    (modify (fun w0 => set_cap (option_map release_capture (cap w0)) w0) ;;;
     destroyAllWindows console)%py w' =
    (if gui console then inr tt else inl CvError, w1)).
  { rewrite (bind_inr _ _ w' tt w1) by reflexivity.
    unfold destroyAllWindows. destruct (gui console); reflexivity. }
  rewrite Hclean.
  assert (H1 : cap w1 = Some {| cap_source := camera console camera_id;
                                cap_released := true |} /\
               out w1 = out w /\ files w1 = files w).
  { unfold w1. cbn. rewrite Hcap, Hout, Hfiles. cbn. repeat split. }
  destruct x as [e|l], (gui console); cbn [snd]; exact H1.
Qed.

(** X12. What [process_webcam_stream] returns, when it returns: it has
    shown the frames in the camera's order, each with its detections drawn
    and a band whose frame counter is 0, up to and including the frame at
    which the quit key is first read, or all of them when it never is.  The
    key is recognised by its low byte alone: a reading is the quit key
    exactly when it is 113 modulo 256. *)
Theorem webcam_stops_at_the_quit_key (env : Env) (console : Console)
    (camera_id : Z) (w : World) (shown : list Frame) :
  outcome (process_webcam_stream env console camera_id w) = inr shown ->
  let frames := delivered console camera_id in
  Forall2 (shown_for env (detector w)) (firstn (List.length shown) frames) shown /\
  match first_quit console 0 (List.length frames) with
  | Some i => List.length shown = S i
  | None => List.length shown = List.length frames
  end /\
  (forall key, quit_key key = (key mod 256 =? 113)).
Proof.
  unfold process_webcam_stream, outcome.
  set (c := {| cap_source := camera console camera_id; cap_released := false |}).
  rewrite (bind_inr _ _ w tt (set_cap (Some c) w)) by reflexivity.
  unfold try_finally.
  destruct (webcam_loop_any env console (cap_frames c) 0 [] (set_cap (Some c) w))
    as (x & w' & Hloop & _ & _ & _ & _ & Hx).
  rewrite Hloop.
  assert (Hd : cap_frames c = delivered console camera_id).
  { unfold cap_frames, delivered, c. cbn.
    destruct (camera console camera_id); reflexivity. }
  rewrite Hd in Hx.
  destruct x as [e|l].
  - destruct ((modify _ ;;; destroyAllWindows console)%py w') as [[e'|u] w''];
      cbn; discriminate.
  - destruct ((modify _ ;;; destroyAllWindows console)%py w') as [[e'|u] w''];
      cbn; [discriminate|].
    intro H. injection H as <-. cbv zeta.
    destruct Hx as (new & -> & HF & Hlen). cbn [app].
    split; [exact HF|]. split.
    + destruct (first_quit console 0 (List.length (delivered console camera_id)));
        exact Hlen.
    + intro key. unfold quit_key.
      change 255 with (Z.ones 8). rewrite Z.land_ones by lia. reflexivity.
Qed.

Lemma webcam_stops_at_the_quit_key_witness :
  List.length
    (match outcome (process_webcam_stream (Samples.sample_env false)
                      Samples2.sample_console 0 initial_world) with
     | inr shown => shown
     | inl _ => []
     end) = 2%nat.
Proof.
  destruct (outcome (process_webcam_stream (Samples.sample_env false)
                       Samples2.sample_console 0 initial_world))
    as [e|shown] eqn:E.
  - vm_compute in E. discriminate.
  - destruct (webcam_stops_at_the_quit_key (Samples.sample_env false)
                Samples2.sample_console 0 initial_world shown E)
      as (_ & Hlen & _).
    exact Hlen.
Defined.

(** *** Jobs *)

Lemma string_of_uint_underscore_free (d : Decimal.uint) :
  underscore_free (NilEmpty.string_of_uint d) = true.
Proof.
  induction d; cbn; try reflexivity; exact IHd.
Qed.

Lemma str_Z_underscore_free (n : Z) : underscore_free (str_Z n) = true.
Proof.
  unfold str_Z, NilZero.string_of_int, NilZero.string_of_uint.
  destruct (Z.to_int n) as [d|d]; destruct d; cbn; try reflexivity;
    apply string_of_uint_underscore_free.
Qed.

Lemma to_int_not_nil (n : Z) :
  Z.to_int n <> Decimal.Pos Decimal.Nil /\ Z.to_int n <> Decimal.Neg Decimal.Nil.
Proof.
  split; intro H; pose proof (DecimalZ.of_to n) as E; rewrite H in E;
    cbn in E; subst n; discriminate.
Qed.

Lemma str_Z_inj (a b : Z) : str_Z a = str_Z b -> a = b.
Proof.
  unfold str_Z. intro H. apply DecimalZ.to_int_inj.
  destruct (to_int_not_nil a) as (Ha1 & Ha2).
  destruct (to_int_not_nil b) as (Hb1 & Hb2).
  pose proof (NilZero.isi _ Ha1 Ha2) as Ea.
  pose proof (NilZero.isi _ Hb1 Hb2) as Eb.
  rewrite H in Ea. congruence.
Qed.

Lemma prefix_app (p s : string) : String.prefix p (p ++ s) = true.
Proof.
  induction p as [|c p IH]; cbn; [now destruct s|].
  destruct (ascii_dec c c); [exact IH|congruence].
Qed.

Lemma prefix_app_cancel (a p s : string) :
  String.prefix (a ++ p) (a ++ s) = String.prefix p s.
Proof.
  induction a as [|c a IH]; cbn; [reflexivity|].
  destruct (ascii_dec c c); [exact IH|congruence].
Qed.

(** Two underscore-free strings, each followed by an underscore, of which
    one begins the other, are the same string. *)
Lemma prefix_separator (a : string) :
  forall b x y,
    underscore_free a = true -> underscore_free b = true ->
    String.prefix (a ++ String "_" x) (b ++ String "_" y) = true -> a = b.
Proof.
  induction a as [|c a IH]; intros [|c' b] x y Ha Hb H;
    cbn [String.prefix append underscore_free] in *.
  - reflexivity.
  - destruct (ascii_dec "_" c') as [<-|]; [|discriminate].
    cbn in Hb. discriminate.
  - destruct (ascii_dec c "_") as [->|]; [|discriminate].
    cbn in Ha. discriminate.
  - destruct (ascii_dec c c') as [->|]; [|discriminate].
    apply andb_true_iff in Ha. apply andb_true_iff in Hb.
    f_equal. apply (IH b x y); tauto.
Qed.

Lemma own_output_matches (job_id : Z) (name : string) :
  startswith (job_output job_id name)
    (outputs_dir ++ str_Z job_id ++ "_processed_")%string = true.
Proof.
  unfold startswith, job_output.
  rewrite <- !string_app_assoc. apply prefix_app.
Qed.

Lemma foreign_does_not_match (job_id : Z) (p : string) :
  foreign_to job_id p ->
  startswith p (outputs_dir ++ str_Z job_id ++ "_processed_")%string = false.
Proof.
  intros (j & name & [(Hne & ->)| ->]); unfold startswith.
  - unfold job_output. rewrite prefix_app_cancel.
    destruct (String.prefix _ _) eqn:E; [exfalso|reflexivity].
    apply Hne. apply str_Z_inj. symmetry.
    apply (prefix_separator _ _ "processed_" ("processed_" ++ name)%string);
      [apply str_Z_underscore_free|apply str_Z_underscore_free|exact E].
  - unfold job_input.
    change outputs_dir with ("app/static/" ++ "outputs/")%string.
    change uploads_dir with ("app/static/" ++ "uploads/")%string.
    rewrite !string_app_assoc, prefix_app_cancel.
    cbn [append String.prefix].
    destruct (ascii_dec "o" "u") as [E|_]; [discriminate E|reflexivity].
Qed.

Lemma job_paths_differ (j : Z) (name : string) : job_input j name <> job_output j name.
Proof.
  intro H. apply (f_equal (String.get 11)) in H. cbn in H. discriminate.
Qed.

(** X13. A job sees only its own output: among files that are other jobs'
    outputs or uploads of any job, GET /status/{job_id} answers "processing"
    and GET /download/{job_id} answers 404.  The decimal text of a job id
    contains no underscore, so that the pattern "{job_id}_processed_*"
    matches the outputs of that job alone (job 7 does not see the output of
    job 70 or 17). *)
Theorem jobs_are_isolated (job_id : Z) (w : World) :
  Forall (foreign_to job_id) (files w) ->
  get_processing_status job_id w = "processing" /\
  download_processed_video job_id w = Missing 404 "Processed video not found".
Proof.
  intro H. unfold get_processing_status, download_processed_video.
  assert (E : processed_files job_id w = []).
  { unfold processed_files. induction (files w) as [|p l IH]; [reflexivity|].
    inversion H as [|? ? Hp Hl]; subst. cbn [filter].
    rewrite (foreign_does_not_match job_id p Hp). apply IH. exact Hl. }
  rewrite E. split; reflexivity.
Qed.

Lemma jobs_are_isolated_witness :
  get_processing_status 7
    (set_files [job_output 70 "7_processed_clip.mp4"; job_output 17 "clip.mp4";
                job_input 7 "clip.mp4"] initial_world) = "processing" /\
  download_processed_video 7
    (set_files [job_output 70 "7_processed_clip.mp4"; job_output 17 "clip.mp4";
                job_input 7 "clip.mp4"] initial_world)
  = Missing 404 "Processed video not found".
Proof.
  apply (jobs_are_isolated 7).
  cbn. repeat constructor.
  - exists 70, "7_processed_clip.mp4"%string. left. split; [lia|reflexivity].
  - exists 17, "clip.mp4"%string. left. split; [lia|reflexivity].
  - exists 7, "clip.mp4"%string. right. reflexivity.
Defined.

(** What an accepted submission did. *)
Lemma accepted_submission (env : Env) (srv srv' : Server) (file : UploadFile)
    (w w1 : World) (m u n : string) (j : Z) :
  detect_objects_video env srv file w = (inr (Started m j u n, srv'), w1) ->
  j = py_int (now env (ticks w)) /\ n = filename file /\
  srv' = {| detector_loaded := detector_loaded srv;
            background_tasks :=
              background_tasks srv ++
              [{| task_input_path := job_input j n;
                  task_output_path := job_output j n;
                  task_job_id := j |}] |} /\
  files w1 = job_input j n :: files w /\
  ticks w1 = S (ticks w) /\
  detector_loaded srv = true /\
  writable env (job_input j n) = true.
Proof.
  unfold detect_objects_video.
  destruct (detector_loaded srv) eqn:Hd; cbn [negb]; [|unfold ret; discriminate].
  destruct (endswith_any _ _); cbn [negb]; [|unfold ret; discriminate].
  unfold try_except.
  rewrite (bind_inr _ _ w (now env (ticks w)) (set_ticks (S (ticks w)) w))
    by reflexivity.
  cbn beta zeta. unfold save_file.
  fold (job_input (py_int (now env (ticks w))) (filename file)).
  fold (job_output (py_int (now env (ticks w))) (filename file)).
  destruct (writable env (job_input _ _)) eqn:Hw.
  - rewrite (bind_inr _ _ _ tt
               (set_files (job_input (py_int (now env (ticks w))) (filename file)
                           :: files (set_ticks (S (ticks w)) w))
                  (set_ticks (S (ticks w)) w))) by reflexivity.
    unfold ret. intro H. injection H as <- <- <- <- <- <-.
    repeat split; try reflexivity. exact Hw.
  - rewrite (bind_inl _ _ _ (OSError (job_input (py_int (now env (ticks w)))
                                        (filename file)))
               (set_ticks (S (ticks w)) w)) by reflexivity.
    unfold bind, structlog, modify, ret. discriminate.
Qed.

(** The files [process_video] leaves: those it found, and the writer's file
    when the input opened and the file could be created. *)
Lemma process_video_files (env : Env) (self : VideoProcessor)
    (input_path output_path : string) (w : World) :
  files (final (process_video env self input_path output_path w)) =
  match video_at env input_path with
  | Some _ => if writable env output_path then output_path :: files w else files w
  | None => files w
  end.
Proof.
  unfold final.
  destruct (video_at env input_path) as [v|] eqn:Hv.
  - rewrite (process_video_opened env self _ _ w v Hv).
    destruct (frame_loop_any env self (py_int (CAP_PROP_FRAME_COUNT v)) (frames v)
                initial_locals (world_before_loop env output_path v w)
                (fresh_writer env output_path v) eq_refl)
      as (x & w' & m & written & Hloop & _ & _ & _ & _ & Hfiles & _ & _).
    rewrite Hloop.
    assert (Hb : files (world_before_loop env output_path v w) =
                 if writable env output_path then output_path :: files w else files w).
    { unfold world_before_loop.
      destruct (info_enabled env), (writable env output_path); reflexivity. }
    rewrite Hb in Hfiles.
    destruct x as [e|st]; [exact Hfiles|].
    destruct (info_enabled env); exact Hfiles.
  - unfold process_video.
    rewrite (bind_inr _ _ w (now env (ticks w)) (set_ticks (S (ticks w)) w))
      by reflexivity.
    unfold try_except, process_video_try. rewrite Hv. reflexivity.
Qed.

(** X14. Once a submission has been accepted and its task has run on an
    upload that opens, with an output file that can be created, the job is
    reported as completed and its download is served, whatever the
    processing did: the status looks only for the output file, which the
    writer creates when it is opened, so that a run that raised in its
    loop leaves a job that reads as completed.  The task itself never
    raises. *)
Theorem job_reads_completed_once_the_writer_opened (env : Env)
    (video_processor : VideoProcessor) (srv srv' : Server) (file : UploadFile)
    (w w1 : World) (m u n : string) (j : Z) (v : Video) :
  detect_objects_video env srv file w = (inr (Started m j u n, srv'), w1) ->
  video_at env (job_input j n) = Some v ->
  writable env (job_output j n) = true ->
  exists t,
    background_tasks srv' = background_tasks srv ++ [t] /\
    let run := run_task env video_processor t w1 in
    outcome run = inr tt /\
    get_processing_status j (final run) = "completed" /\
    exists p,
      download_processed_video j (final run) =
        FileResponse p "video/mp4" ("processed_" ++ str_Z j ++ ".mp4")%string /\
      In p (files (final run)).
Proof.
  intros Hacc Hv Hw.
  destruct (accepted_submission env srv srv' file w w1 m u n j Hacc)
    as (_ & _ & -> & _ & _ & _ & _).
  eexists. split; [reflexivity|]. unfold run_task. cbn [task_input_path task_output_path task_job_id].
  destruct (process_video_background_run env video_processor
              (job_input j n) (job_output j n) j w1)
    as (w' & Hrun & _ & _ & _ & Hfiles).
  unfold outcome, final. rewrite Hrun. cbn [fst snd].
  split; [reflexivity|].
  assert (Hin : In (job_output j n) (files w')).
  { apply Hfiles.
    - rewrite process_video_files, Hv, Hw. now left.
    - intro E. exact (job_paths_differ j n (eq_sym E)). }
  split.
  - exact (status_completed j w' _ Hin (own_output_matches j n)).
  - unfold download_processed_video.
    assert (Hp : In (job_output j n) (processed_files j w')).
    { apply filter_In. split; [exact Hin|apply own_output_matches]. }
    destruct (processed_files j w') as [|p l] eqn:E; [contradiction|].
    exists p. split; [reflexivity|].
    assert (Hp' : In p (processed_files j w')) by (rewrite E; now left).
    apply filter_In in Hp'. tauto.
Qed.

Lemma job_reads_completed_once_the_writer_opened_witness :
  exists t,
    background_tasks
      {| detector_loaded := true;
         background_tasks := [{| task_input_path := job_input 7 "clip.mp4";
                                 task_output_path := job_output 7 "clip.mp4";
                                 task_job_id := 7 |}] |}
    = background_tasks Samples2.loaded_server ++ [t] /\
    get_processing_status 7
      (final (run_task (Samples2.upload_env true) VideoProcessor_init t
                (set_files [job_input 7 "clip.mp4"]
                   (set_ticks 1 initial_world)))) = "completed".
Proof.
  destruct (job_reads_completed_once_the_writer_opened (Samples2.upload_env true)
              VideoProcessor_init Samples2.loaded_server _ Samples2.clip_upload
              initial_world _ _ _ _ 7 Samples.clip
              ltac:(vm_compute; reflexivity) eq_refl eq_refl)
    as (t & Ht & _ & Hs & _).
  exists t. split; [exact Ht|exact Hs].
Defined.

(** X15. The background task removes the upload exactly when
    [process_video] returned a result: when it raised, for whatever
    reason, the upload stays on disk.  With INFO logging enabled for the
    module logger of the video processor, [process_video] raises on every
    run (at the latest in its closing log call), so no upload is ever
    removed. *)
Theorem upload_removed_only_after_success (env : Env) (video_processor : VideoProcessor)
    (input_path output_path : string) (job_id : Z) (w : World) :
  In input_path (files w) ->
  let w0 := set_log (log w ++ [(INFO, "Starting video processing")]) w in
  let run := process_video_background env video_processor
               input_path output_path job_id w in
  match outcome (process_video env video_processor input_path output_path w0) with
  | inr _ => ~ In input_path (files (final run))
  | inl _ => In input_path (files (final run))
  end /\
  (info_enabled env = true -> In input_path (files (final run))).
Proof.
  intros Hin w0 run.
  assert (Hkeep : In input_path
                    (files (final (process_video env video_processor
                                     input_path output_path w0)))).
  { rewrite process_video_files.
    destruct (video_at env input_path); [|exact Hin].
    destruct (writable env output_path); [now right|exact Hin]. }
  assert (Hinfo : info_enabled env = true ->
                  exists e, outcome (process_video env video_processor
                                       input_path output_path w0) = inl e).
  { intro Hi. destruct (video_at env input_path) as [v|] eqn:Hv.
    - unfold outcome. rewrite (process_video_opened env _ _ _ w0 v Hv).
      destruct (frame_loop _ _ _ _ _ _) as [[e|st] w3]; [now exists e|].
      rewrite Hi. now exists TypeError.
    - rewrite (process_video_unopened env _ _ _ w0 Hv). eexists. reflexivity. }
  assert (Hmain :
    match outcome (process_video env video_processor input_path output_path w0) with
    | inr _ => ~ In input_path (files (final run))
    | inl _ => In input_path (files (final run))
    end).
  { unfold run, process_video_background, try_except, outcome, final in *.
    rewrite (bind_inr _ _ w tt w0) by reflexivity.
    destruct (process_video env video_processor input_path output_path w0)
      as [[e|r] w1] eqn:E; cbn [fst snd] in *.
    - rewrite (bind_inl _ _ w0 e w1 E). cbn. exact Hkeep.
    - rewrite (bind_inr _ _ w0 r w1 E).
      rewrite (bind_inr _ _ w1 tt
                 (set_log (log w1 ++ [(INFO, "Video processing completed")]) w1))
        by reflexivity.
      unfold os_remove. cbn.
      assert (Hex : existsb (String.eqb input_path) (files w1) = true).
      { apply existsb_exists. exists input_path. split; [exact Hkeep|].
        apply String.eqb_refl. }
      rewrite Hex. cbn. intro Hc. apply filter_In in Hc.
      destruct Hc as (_ & Hc). rewrite String.eqb_refl in Hc. discriminate. }
  split; [exact Hmain|].
  intro Hi. destruct (Hinfo Hi) as (e & He). rewrite He in Hmain. exact Hmain.
Qed.

Lemma upload_removed_only_after_success_witness :
  In "app/static/uploads/7_clip.mp4"
     (files (final (process_video_background (Samples2.upload_env true)
                      VideoProcessor_init (job_input 7 "clip.mp4")
                      (job_output 7 "clip.mp4") 7
                      (set_files [job_input 7 "clip.mp4"] initial_world)))).
Proof.
  apply (upload_removed_only_after_success (Samples2.upload_env true)
           VideoProcessor_init (job_input 7 "clip.mp4") (job_output 7 "clip.mp4") 7
           (set_files [job_input 7 "clip.mp4"] initial_world)).
  - cbn. now left.
  - reflexivity.
Defined.

(** X16. The job id is the clock reading truncated to a second, so job
    ids are not unique: two submissions accepted within the same second
    get the same job id, and when they carry the same file name the two
    scheduled tasks are the same task (the second upload has replaced the
    first, and both write the same output file). *)
Theorem same_second_same_job (env : Env) (srv srv1 srv2 : Server)
    (file1 file2 : UploadFile) (w w1 w2 : World)
    (m1 u1 n1 m2 u2 n2 : string) (j1 j2 : Z) :
  detect_objects_video env srv file1 w = (inr (Started m1 j1 u1 n1, srv1), w1) ->
  detect_objects_video env srv1 file2 w1 = (inr (Started m2 j2 u2 n2, srv2), w2) ->
  py_int (now env (ticks w)) = py_int (now env (S (ticks w))) ->
  j1 = j2 /\ u1 = u2 /\
  (filename file1 = filename file2 ->
   exists t, background_tasks srv2 = background_tasks srv ++ [t; t]).
Proof.
  intros H1 H2 Hsec.
  assert (Hu1 : u1 = ("/status/" ++ str_Z j1)%string /\
                u2 = ("/status/" ++ str_Z j2)%string).
  { clear Hsec. split.
    - unfold detect_objects_video in H1.
      destruct (detector_loaded srv); cbn [negb] in H1; [|discriminate].
      destruct (endswith_any _ _); cbn [negb] in H1; [|discriminate].
      unfold try_except, bind, time_time, save_file in H1.
      destruct (writable env _); cbn in H1; [|discriminate].
      injection H1 as _ <- <- _ _ _. reflexivity.
    - unfold detect_objects_video in H2.
      destruct (detector_loaded srv1); cbn [negb] in H2; [|discriminate].
      destruct (endswith_any _ _); cbn [negb] in H2; [|discriminate].
      unfold try_except, bind, time_time, save_file in H2.
      destruct (writable env _); cbn in H2; [|discriminate].
      injection H2 as _ <- <- _ _ _. reflexivity. }
  destruct (accepted_submission env srv srv1 file1 w w1 m1 u1 n1 j1 H1)
    as (Hj1 & Hn1 & Hs1 & _ & Ht1 & _ & _).
  destruct (accepted_submission env srv1 srv2 file2 w1 w2 m2 u2 n2 j2 H2)
    as (Hj2 & Hn2 & Hs2 & _ & _ & _ & _).
  rewrite Ht1 in Hj2.
  assert (Hj : j1 = j2) by congruence.
  split; [exact Hj|]. split.
  - destruct Hu1 as (-> & ->). now rewrite Hj.
  - intro Hname. eexists. rewrite Hs2, Hs1. cbn [background_tasks].
    rewrite <- app_assoc. cbn [app].
    rewrite <- Hj, Hn2, <- Hname, <- Hn1. reflexivity.
Qed.

Lemma same_second_same_job_witness :
  exists t,
    background_tasks
      (snd (match fst (detect_objects_video Samples2.fast_env
                         {| detector_loaded := true;
                            background_tasks :=
                              [{| task_input_path := job_input 7 "clip.mp4";
                                  task_output_path := job_output 7 "clip.mp4";
                                  task_job_id := 7 |}] |}
                         Samples2.clip_upload
                         (set_files [job_input 7 "clip.mp4"]
                            (set_ticks 1 initial_world))) with
            | inr r => r
            | inl _ => (HTTPException 500 (Text "raised"), Samples2.loaded_server)
            end))
    = [t; t].
Proof.
  destruct (same_second_same_job Samples2.fast_env Samples2.loaded_server _ _
              Samples2.clip_upload Samples2.clip_upload initial_world _ _
              _ _ _ _ _ _ _ _
              ltac:(vm_compute; reflexivity) ltac:(vm_compute; reflexivity)
              ltac:(vm_compute; reflexivity))
    as (_ & _ & Ht).
  destruct (Ht eq_refl) as (t & Et).
  exists t. exact Et.
Defined.

(** *** MetricsLogger *)

(** What one call does to the counters; no call raises. *)
Lemma apply_call_run (m : Metrics.Counters) (c : Metrics.Call) :
  exists m',
    Metrics.apply_call m c = inr m' /\
    Metrics.total_requests m' = Metrics.total_requests m + count_starts [c] /\
    Metrics.successful_requests m' =
      Metrics.successful_requests m + count_successes [c] /\
    Metrics.failed_requests m' = Metrics.failed_requests m + count_failures [c] /\
    Metrics.total_detections m' = Metrics.total_detections m + sum_detections [c].
Proof.
  destruct c as [|t n|]; cbn [Metrics.apply_call].
  - eexists. split; [reflexivity|]. cbn. repeat split; lia.
  - assert (H : exists q, (if Qgtb t 0 then py_fdiv 1 t else inr 0%Q) = inr q).
    { destruct (Qgtb t 0) eqn:G; [|now exists 0%Q].
      exists (1 / t)%Q. apply py_fdiv_nonzero. apply Qgtb_true in G.
      intro E. rewrite E in G. exact (Qlt_irrefl 0 G). }
    destruct H as (q & ->).
    eexists. split; [reflexivity|]. cbn. repeat split; lia.
  - eexists. split; [reflexivity|]. cbn. repeat split; lia.
Qed.

Lemma count_starts_cons (c : Metrics.Call) (cs : list Metrics.Call) :
  count_starts (c :: cs) = count_starts [c] + count_starts cs.
Proof.
  unfold count_starts. destruct c; cbn [filter List.length]; lia.
Qed.

Lemma count_successes_cons (c : Metrics.Call) (cs : list Metrics.Call) :
  count_successes (c :: cs) = count_successes [c] + count_successes cs.
Proof.
  unfold count_successes. destruct c; cbn [filter List.length]; lia.
Qed.

Lemma count_failures_cons (c : Metrics.Call) (cs : list Metrics.Call) :
  count_failures (c :: cs) = count_failures [c] + count_failures cs.
Proof.
  unfold count_failures. destruct c; cbn [filter List.length]; lia.
Qed.

Lemma sum_detections_cons (c : Metrics.Call) (cs : list Metrics.Call) :
  sum_detections (c :: cs) = sum_detections [c] + sum_detections cs.
Proof.
  unfold sum_detections. destruct c; cbn [fold_right]; lia.
Qed.

Lemma apply_calls_run (cs : list Metrics.Call) :
  forall m,
  exists m',
    Metrics.apply_calls m cs = inr m' /\
    Metrics.total_requests m' = Metrics.total_requests m + count_starts cs /\
    Metrics.successful_requests m' =
      Metrics.successful_requests m + count_successes cs /\
    Metrics.failed_requests m' = Metrics.failed_requests m + count_failures cs /\
    Metrics.total_detections m' = Metrics.total_detections m + sum_detections cs.
Proof.
  induction cs as [|c cs IH]; intro m.
  - exists m. cbn. repeat split; lia.
  - destruct (apply_call_run m c) as (m1 & H1 & Ht & Hs & Hf & Hd).
    destruct (IH m1) as (m' & H' & Ht' & Hs' & Hf' & Hd').
    exists m'. cbn [Metrics.apply_calls]. rewrite H1.
    split; [exact H'|].
    rewrite (count_starts_cons c cs), (count_successes_cons c cs),
            (count_failures_cons c cs), (sum_detections_cons c cs).
    repeat split; lia.
Qed.

(** X17. No call on a [MetricsLogger] raises, whatever the processing time
    passed (the division for the logged fps is guarded), and after any
    sequence of calls on a new logger each counter holds what it is named
    for: the number of requests started, of successes, of failures, and
    the sum of the detection counts of the successes. *)
Theorem counters_count_the_calls (cs : list Metrics.Call) :
  exists m,
    Metrics.apply_calls Metrics.MetricsLogger_init cs = inr m /\
    Metrics.total_requests m = count_starts cs /\
    Metrics.successful_requests m = count_successes cs /\
    Metrics.failed_requests m = count_failures cs /\
    Metrics.total_detections m = sum_detections cs.
Proof.
  destruct (apply_calls_run cs Metrics.MetricsLogger_init)
    as (m & H & Ht & Hs & Hf & Hd).
  exists m. split; [exact H|]. cbn in Ht, Hs, Hf, Hd. repeat split; lia.
Qed.

Lemma count_nonneg (cs : list Metrics.Call) :
  0 <= count_starts cs /\ 0 <= count_successes cs /\ 0 <= count_failures cs.
Proof.
  unfold count_starts, count_successes, count_failures. lia.
Qed.

(** Answers never outnumber the requests they answer. *)
Lemma answers_bounded (cs : list Metrics.Call) :
  forall open,
    answers_requests open cs = true ->
    count_successes cs + count_failures cs <= Z.of_nat open + count_starts cs.
Proof.
  induction cs as [|c cs IH]; intros open H.
  - cbn. lia.
  - rewrite (count_starts_cons c cs), (count_successes_cons c cs),
            (count_failures_cons c cs).
    destruct c as [|t n|]; cbn [answers_requests] in H.
    + specialize (IH _ H).
      unfold count_starts, count_successes, count_failures in *;
        cbn [filter List.length] in *; lia.
    + destruct open as [|open']; [discriminate|]. specialize (IH _ H).
      unfold count_starts, count_successes, count_failures in *;
        cbn [filter List.length] in *; lia.
    + destruct open as [|open']; [discriminate|]. specialize (IH _ H).
      unfold count_starts, count_successes, count_failures in *;
        cbn [filter List.length] in *; lia.
Qed.

(** X18. [log_system_metrics] returns for every state of the counters: its
    three divisions are guarded.  After calls in which every success or
    failure answers a request started before, successes and failures
    together do not exceed the requests, and the success rate it reports
    lies between 0 and 1. *)
Theorem success_rate_is_a_rate (cs : list Metrics.Call) (m : Metrics.Counters) :
  answers_requests 0 cs = true ->
  Metrics.apply_calls Metrics.MetricsLogger_init cs = inr m ->
  Metrics.successful_requests m + Metrics.failed_requests m
    <= Metrics.total_requests m /\
  exists s,
    Metrics.log_system_metrics m = inr s /\
    (0 <= Metrics.sm_success_rate s)%Q /\ (Metrics.sm_success_rate s <= 1)%Q.
Proof.
  intros Hans Hrun.
  destruct (apply_calls_run cs Metrics.MetricsLogger_init)
    as (m' & H & Ht & Hs & Hf & _).
  rewrite Hrun in H. injection H as <-. cbn in Ht, Hs, Hf.
  pose proof (answers_bounded cs 0 Hans) as Hb.
  pose proof (count_nonneg cs) as (_ & Hs0 & Hf0).
  split; [cbn in Hb; lia|].
  unfold Metrics.log_system_metrics.
  assert (Hdiv : forall a : Q,
            (0 <? Metrics.successful_requests m) = true ->
            py_fdiv a (inject_Z (Metrics.successful_requests m)) =
            inr (a / inject_Z (Metrics.successful_requests m))%Q).
  { intros a Hp. apply py_fdiv_nonzero. apply Z.ltb_lt in Hp.
    unfold Qeq, inject_Z. cbn. lia. }
  assert (H1 : exists q,
            (if 0 <? Metrics.successful_requests m
             then py_fdiv (Metrics.total_processing_time m)
                    (inject_Z (Metrics.successful_requests m))
             else inr 0%Q) = inr q).
  { destruct (0 <? Metrics.successful_requests m) eqn:E; [|now exists 0%Q].
    rewrite (Hdiv _ eq_refl). eexists. reflexivity. }
  destruct H1 as (q1 & ->).
  assert (H3 : exists q,
            (if 0 <? Metrics.successful_requests m
             then py_truediv (Metrics.total_detections m)
                    (Metrics.successful_requests m)
             else inr 0%Q) = inr q).
  { destruct (0 <? Metrics.successful_requests m) eqn:E; [|now exists 0%Q].
    apply Z.ltb_lt in E. rewrite py_truediv_nonzero by lia.
    eexists. reflexivity. }
  destruct (0 <? Metrics.total_requests m) eqn:E.
  - apply Z.ltb_lt in E. rewrite py_truediv_nonzero by lia.
    destruct H3 as (q3 & ->).
    eexists. split; [reflexivity|]. cbn [Metrics.sm_success_rate].
    split.
    + apply Qle_shift_div_l;
        [change 0%Q with (inject_Z 0); rewrite <- Zlt_Qlt; lia|].
      rewrite Qmult_0_l. change 0%Q with (inject_Z 0).
      rewrite <- Zle_Qle. lia.
    + apply Qle_shift_div_r;
        [change 0%Q with (inject_Z 0); rewrite <- Zlt_Qlt; lia|].
      rewrite Qmult_1_l. rewrite <- Zle_Qle. lia.
  - destruct H3 as (q3 & ->).
    eexists. split; [reflexivity|]. cbn [Metrics.sm_success_rate].
    split; unfold Qle; cbn; lia.
Qed.

Lemma success_rate_is_a_rate_witness :
  exists s,
    Metrics.log_system_metrics
      {| Metrics.total_requests := 2; Metrics.successful_requests := 1;
         Metrics.failed_requests := 1; Metrics.total_processing_time := 0.5;
         Metrics.total_detections := 3 |} = inr s /\
    (Metrics.sm_success_rate s <= 1)%Q.
Proof.
  destruct (success_rate_is_a_rate
              [Metrics.log_request_start; Metrics.log_request_success 0.5 3;
               Metrics.log_request_start; Metrics.log_request_failure]
              {| Metrics.total_requests := 2; Metrics.successful_requests := 1;
                 Metrics.failed_requests := 1; Metrics.total_processing_time := 0.5;
                 Metrics.total_detections := 3 |}
              eq_refl ltac:(vm_compute; reflexivity))
    as (_ & s & Hs & _ & Hle).
  exists s. split; [exact Hs|exact Hle].
Defined.

(** *** POST /detect/image *)

(** X19. With the detector loaded, POST /detect/image answers 200 for
    every image it decodes, also when the model raises on it: the failure
    is absorbed by [detect_frame], so the answer then carries no detection
    and the handler's own 500 answer is never given for a model failure.
    The answer carries the detections of [detect_frame], their number, and
    each of their class names once.  With the detector not loaded the
    answer is 503 and the detector is not called. *)
Theorem image_endpoint_answers (env : Env) (srv : Server) (file : UploadFile)
    (image : Frame) (w : World) :
  let run := detect_objects_image env srv file image w in
  if detector_loaded srv then
    exists t classes,
      outcome run =
        inr (ImageResult (filename file) t (detections_for env (detector w) image)
               (Z.of_nat (List.length (detections_for env (detector w) image)))
               classes) /\
      NoDup classes /\
      (forall c, In c classes <->
                 exists d, In d (detections_for env (detector w) image) /\
                           det_class d = c) /\
      (poisoned env (detector w) image ->
       detections_for env (detector w) image = [])
  else
    outcome run = inr (ImageError 503 (Text "Model not loaded")) /\ final run = w.
Proof.
  intro run. unfold run, detect_objects_image, outcome, final.
  destruct (detector_loaded srv); cbn [negb]; [|split; reflexivity].
  unfold try_except.
  rewrite (bind_inr _ _ w (now env (ticks w)) (set_ticks (S (ticks w)) w))
    by reflexivity.
  destruct (detect_frame_run env image (set_ticks (S (ticks w)) w))
    as (r & w3 & Hrun & Hdets & _).
  rewrite (bind_inr _ _ _ r w3 Hrun).
  rewrite (bind_inr _ _ w3 (now env (ticks w3)) (set_ticks (S (ticks w3)) w3))
    by reflexivity.
  cbn beta zeta.
  rewrite (bind_inr _ _ _ tt
             (set_log (log (set_ticks (S (ticks w3)) w3)
                       ++ [(INFO, "Image detection completed")])
                (set_ticks (S (ticks w3)) w3))) by reflexivity.
  unfold ret. cbn [fst].
  change (detector (set_ticks (S (ticks w)) w)) with (detector w) in Hdets.
  rewrite Hdets.
  eexists _, _. split; [reflexivity|].
  split; [apply NoDup_nodup|]. split.
  - intro c. rewrite nodup_In, in_map_iff.
    split; intros (d & H1 & H2); exists d; split; assumption.
  - intros (msg & Hmsg). unfold detections_for. now rewrite Hmsg.
Qed.
